(** * The course API service layer of the student management dashboard

    A shallow embedding of [src/lib/api.ts]: the in-memory course store
    ([MockApiClient]), the retry wrapper ([withRetry]), the public
    [coursesApi] object and [checkApiHealth], followed by the properties
    the specification states about them.

    Conventions of the model.
    - A JavaScript string is the list of its UTF-16 code units.
    - A JavaScript number is an integer or [-Infinity] (what [Math.max]
      yields on no arguments); arithmetic on integers is exact, as it is
      on doubles below 2^53.  Attempt counters, delays and HTTP statuses
      are integers.
    - An [async] function is a state transformer on the world it runs in,
      returning a value or the thrown error.  Awaiting a timer advances a
      virtual clock; computation itself takes no time.
    - [Math.random()] reads the next sample of a stream carried by the
      world. *)

From Stdlib Require Import ZArith QArith String Ascii List Lia DecimalString.
From stdpp Require Import base list.
Import ListNotations.

Local Open Scope Z_scope.

(** ** Strings *)

Definition jsstring := list N.

Definition lit (s : string) : jsstring :=
  map N_of_ascii (list_ascii_of_string s).

(** ECMAScript WhiteSpace and LineTerminator code units, the ones
    [String.prototype.trim] strips. *)
Definition isWhiteSpace (u : N) : bool :=
  (existsb (N.eqb u)
     [9; 10; 11; 12; 13; 32; 160; 5760; 8232; 8233; 8239; 8287; 12288; 65279]
   || ((8192 <=? u) && (u <=? 8202)))%N.

Fixpoint trimStart (s : jsstring) : jsstring :=
  match s with
  | u :: s' => if isWhiteSpace u then trimStart s' else s
  | [] => []
  end.

Definition trim (s : jsstring) : jsstring :=
  rev (trimStart (rev (trimStart s))).

Definition show_Z (z : Z) : jsstring :=
  lit (NilZero.string_of_int (Z.to_int z)).

(** ** Numbers *)

Inductive number :=
| NegInf
| Int (z : Z).

(** [`${n}`]: plain decimal digits, which is how JavaScript prints an
    integer of magnitude below 1e21. *)
Definition show_number (n : number) : jsstring :=
  match n with
  | NegInf => lit "-Infinity"
  | Int z => show_Z z
  end.

(** [a === b] on numbers. *)
Definition number_eqb (a b : number) : bool :=
  match a, b with
  | NegInf, NegInf => true
  | Int x, Int y => x =? y
  | _, _ => false
  end.

(** [a + b] where [b] is an integer.  The sum is the exact one; it is the
    sum the double arithmetic of JavaScript delivers as long as operands
    and result have a magnitude of at most 2^53, which the statements
    that depend on the value of a sum assume of the ids they start from
    ([room_for]). *)
Definition number_add (a : number) (b : Z) : number :=
  match a with
  | NegInf => NegInf
  | Int x => Int (x + b)
  end.

Definition number_max (a b : number) : number :=
  match a, b with
  | NegInf, _ => b
  | _, NegInf => a
  | Int x, Int y => Int (Z.max x y)
  end.

(** [Math.max(...xs)]: [-Infinity] when [xs] is empty. *)
Definition Math_max (xs : list number) : number :=
  fold_right number_max NegInf xs.

(** ** API response types and error classes *)

Record Course := mkCourse {
  id : number;
  name : jsstring;
  description : option jsstring;
  duration : option jsstring;
  instructor : option jsstring;
  enrollmentCount : option number;
  isActive : option bool
}.

(** [Omit<Course, "id">]. *)
Record CourseData := mkCourseData {
  d_name : jsstring;
  d_description : option jsstring;
  d_duration : option jsstring;
  d_instructor : option jsstring;
  d_enrollmentCount : option number;
  d_isActive : option bool
}.

(** [Partial<Course>]: [None] is a property the caller did not supply.  A
    supplied optional property may itself hold [undefined]. *)
Record CourseUpdate := mkCourseUpdate {
  u_id : option number;
  u_name : option jsstring;
  u_description : option (option jsstring);
  u_duration : option (option jsstring);
  u_instructor : option (option jsstring);
  u_enrollmentCount : option (option number);
  u_isActive : option (option bool)
}.

Record ApiResponse (T : Type) := mkResponse {
  data : T;
  success : bool;
  message : jsstring;
  timestamp : Z
}.
Arguments mkResponse {T}.
Arguments data {T}.
Arguments success {T}.
Arguments message {T}.
Arguments timestamp {T}.

(** What a [throw] can carry in this module: the two custom error classes,
    a plain [Error], and [undefined] (the never-assigned [lastError]). *)
Inductive thrown :=
| NetworkError (msg : jsstring) (status : Z)
| ValidationError (msg : jsstring)
| Error (msg : jsstring)
| Undefined.

Inductive Outcome (A : Type) :=
| Return (a : A)
| Throw (e : thrown).
Arguments Return {A}.
Arguments Throw {A}.

(** ** The runtime: timers and the console *)

Inductive Level := log | error.

Inductive Part :=
| Text (s : jsstring)
| Num (n : Z)
| Obj (e : thrown).

Inductive Event :=
| Timer (ms : Z)
| Console (l : Level) (parts : list Part).

Class Runtime (W : Type) := {
  (** [await new Promise(resolve => setTimeout(resolve, ms))] *)
  timer : Z -> W -> W;
  console : Level -> list Part -> W -> W
}.

Definition M (W A : Type) : Type := W -> Outcome A * W.

Definition ret {W A} (a : A) : M W A := fun w => (Return a, w).
Definition throw {W A} (e : thrown) : M W A := fun w => (Throw e, w).

Definition bind {W A B} (m : M W A) (k : A -> M W B) : M W B :=
  fun w =>
    match m w with
    | (Return a, w') => k a w'
    | (Throw e, w') => (Throw e, w')
    end.

Definition try_catch {W A} (body : M W A) (handler : thrown -> M W A) : M W A :=
  fun w =>
    match body w with
    | (Return a, w') => (Return a, w')
    | (Throw e, w') => handler e w'
    end.

Definition effect {W} (f : W -> W) : M W unit := fun w => (Return tt, f w).

Notation "x <- m ;; k" := (bind m (fun x => k))
  (at level 100, m at next level, right associativity).
Notation "m ;;; k" := (bind m (fun _ => k))
  (at level 100, right associativity).

(** ** Configuration *)

Record Config := {
  baseUrl : jsstring;
  timeout : Z;
  retryAttempts : Z;
  retryDelay : Z
}.

Definition API_CONFIG : Config := {|
  baseUrl := lit "https://api.mockapi.io/v1";
  timeout := 10000;
  retryAttempts := 3;
  retryDelay := 1000
|}.

(** ** [withRetry] *)

Section Retry.
Context {W : Type} `{Runtime W} {T : Type}.

(** [throw lastError!] *)
Definition unwrap (lastError : option thrown) : thrown :=
  match lastError with
  | Some e => e
  | None => Undefined
  end.

(** The [for] loop from the iteration numbered [attempt] on.  [fuel]
    bounds the iterations left; [withRetry] supplies one per possible
    attempt, so the loop condition always turns false first (lemma
    [attempts_fuel]). *)
Fixpoint attempts (fuel : nat) (operation : M W T) (maxAttempts delay : Z)
    (attempt : Z) (lastError : option thrown) (w : W) : Outcome T * W :=
  match fuel with
  | O => (Throw (unwrap lastError), w)
  | S fuel' =>
    if attempt <=? maxAttempts then
      let w := console log
        [Text (lit "[v0] API attempt " ++ show_Z attempt ++ lit "/"
               ++ show_Z maxAttempts)] w in
      match operation w with
      | (Return v, w) => (Return v, w)
      | (Throw e, w) =>
        let w := console log
          [Text (lit "[v0] Attempt " ++ show_Z attempt ++ lit " failed:");
           Obj e] w in
        if attempt =? maxAttempts then (Throw e, w)
        else
          let backoffDelay := delay * 2 ^ (attempt - 1) in
          let w := console log
            [Text (lit "[v0] Retrying in " ++ show_Z backoffDelay
                   ++ lit "ms...")] w in
          let w := timer backoffDelay w in
          attempts fuel' operation maxAttempts delay (attempt + 1) (Some e) w
      end
    else (Throw (unwrap lastError), w)
  end.

Definition withRetry (operation : M W T)
    (maxAttempts : Z) (delay : Z) : M W T :=
  attempts (Z.to_nat maxAttempts) operation maxAttempts delay 1 None.

End Retry.

(** ** The world the service runs in *)

Record World := mkWorld {
  courses : list Course;      (* [apiClient.courses], the singleton's store *)
  entropy : nat -> Q;         (* the results [Math.random()] will give *)
  drawn : nat;                (* how many of them were consumed *)
  clock : Z;                  (* virtual time, in ms *)
  timeline : list Event       (* timers awaited and console lines, newest first *)
}.

Definition record (e : Event) (w : World) : World :=
  mkWorld (courses w) (entropy w) (drawn w) (clock w) (e :: timeline w).

Definition advance (ms : Z) (w : World) : World :=
  mkWorld (courses w) (entropy w) (drawn w) (clock w + Z.max 0 ms) (timeline w).

Definition set_courses (cs : list Course) (w : World) : World :=
  mkWorld cs (entropy w) (drawn w) (clock w) (timeline w).

#[export] Instance World_runtime : Runtime World := {|
  timer ms w := record (Timer ms) (advance ms w);
  console l parts w := record (Console l parts) w
|}.

Definition Math_random : M World Q :=
  fun w => (Return (entropy w (drawn w)),
            mkWorld (courses w) (entropy w) (S (drawn w)) (clock w) (timeline w)).

Definition this_courses : M World (list Course) := fun w => (Return (courses w), w).

(** [new Date()], read off the virtual clock. *)
Definition Date_now : M World Z := fun w => (Return (clock w), w).

Definition simulateNetworkDelay (ms : Z) : M World unit :=
  effect (timer ms) ;;;
  effect (console log
    [Text (lit "[v0] Network simulation: " ++ show_Z ms ++ lit "ms delay completed")]).

(** Truthiness of an optional boolean property and of a string. *)
Definition truthy (b : option bool) : bool :=
  match b with
  | Some true => true
  | _ => false
  end.

Definition nonempty (s : jsstring) : bool :=
  match s with
  | [] => false
  | _ => true
  end.

(** [Array.prototype.findIndex]: the first index whose element satisfies
    [p], with that element; [None] stands for [-1]. *)
Definition findIndex {A} (p : A -> bool) (l : list A) : option (nat * A) :=
  list_find (fun x => p x = true) l.

Definition has_id (i : number) (c : Course) : bool := number_eqb (id c) i.

(** [{ ...courseData, id, enrollmentCount: 0, isActive: true }] *)
Definition newCourse_of (courseData : CourseData) (i : number) : Course := {|
  id := i;
  name := d_name courseData;
  description := d_description courseData;
  duration := d_duration courseData;
  instructor := d_instructor courseData;
  enrollmentCount := Some (Int 0);
  isActive := Some true
|}.

(** [{ ...course, ...updates }] *)
Definition merge (c : Course) (updates : CourseUpdate) : Course := {|
  id := default (id c) (u_id updates);
  name := default (name c) (u_name updates);
  description := default (description c) (u_description updates);
  duration := default (duration c) (u_duration updates);
  instructor := default (instructor c) (u_instructor updates);
  enrollmentCount := default (enrollmentCount c) (u_enrollmentCount updates);
  isActive := default (isActive c) (u_isActive updates)
|}.

(** [course.isActive = false] *)
Definition deactivate (c : Course) : Course := {|
  id := id c;
  name := name c;
  description := description c;
  duration := duration c;
  instructor := instructor c;
  enrollmentCount := enrollmentCount c;
  isActive := Some false
|}.

Definition seed : list Course := [
  mkCourse (Int 1) (lit "HTML Basics")
    (Some (lit "Learn the fundamentals of HTML markup language"))
    (Some (lit "4 weeks")) (Some (lit "Sarah Johnson")) (Some (Int 156)) (Some true);
  mkCourse (Int 2) (lit "CSS Mastery")
    (Some (lit "Master CSS styling and responsive design"))
    (Some (lit "6 weeks")) (Some (lit "Mike Chen")) (Some (Int 203)) (Some true);
  mkCourse (Int 3) (lit "JavaScript Pro")
    (Some (lit "Advanced JavaScript concepts and ES6+ features"))
    (Some (lit "8 weeks")) (Some (lit "Alex Rodriguez")) (Some (Int 189)) (Some true);
  mkCourse (Int 4) (lit "React In Depth")
    (Some (lit "Build modern web applications with React"))
    (Some (lit "10 weeks")) (Some (lit "Emily Davis")) (Some (Int 245)) (Some true);
  mkCourse (Int 5) (lit "Node.js Backend")
    (Some (lit "Server-side development with Node.js and Express"))
    (Some (lit "8 weeks")) (Some (lit "David Kim")) (Some (Int 134)) (Some true)
].

(** The process at start-up: the seeded singleton, nothing logged yet. *)
Definition boot (samples : nat -> Q) : World := mkWorld seed samples 0 0 [].

(** ** [MockApiClient] *)

Module MockApiClient.

Definition not_found (i : number) : thrown :=
  NetworkError (lit "Course with ID " ++ show_number i ++ lit " not found") 404.

Definition fetchCourses : M World (ApiResponse (list Course)) :=
  simulateNetworkDelay 800 ;;;
  r1 <- Math_random ;;
  if Qlt_le_dec r1 (1 # 10) then
    throw (NetworkError (lit "Service temporarily unavailable") 503)
  else
    r2 <- Math_random ;;
    if Qlt_le_dec r2 (5 # 100) then
      throw (ValidationError (lit "Invalid request parameters"))
    else
      cs <- this_courses ;;
      now <- Date_now ;;
      ret (mkResponse (List.filter (fun course => truthy (isActive course)) cs)
             true (lit "Courses fetched successfully") now).

Definition fetchCourseById (i : number) : M World (ApiResponse Course) :=
  simulateNetworkDelay 400 ;;;
  cs <- this_courses ;;
  match List.find (fun c => has_id i c && truthy (isActive c)) cs with
  | None => throw (not_found i)
  | Some course =>
    now <- Date_now ;;
    ret (mkResponse course true (lit "Course fetched successfully") now)
  end.

Definition createCourse (courseData : CourseData) : M World (ApiResponse Course) :=
  simulateNetworkDelay 1200 ;;;
  if negb (nonempty (d_name courseData))
     || (Z.of_nat (length (trim (d_name courseData))) <? 3) then
    throw (ValidationError (lit "Course name must be at least 3 characters long"))
  else
    cs <- this_courses ;;
    let newCourse := newCourse_of courseData (number_add (Math_max (map id cs)) 1) in
    effect (set_courses (cs ++ [newCourse])) ;;;
    now <- Date_now ;;
    ret (mkResponse newCourse true (lit "Course created successfully") now).

Definition updateCourse (i : number) (updates : CourseUpdate)
    : M World (ApiResponse Course) :=
  simulateNetworkDelay 900 ;;;
  cs <- this_courses ;;
  match findIndex (has_id i) cs with
  | None => throw (not_found i)
  | Some (courseIndex, c) =>
    effect (set_courses (<[courseIndex := merge c updates]> cs)) ;;;
    now <- Date_now ;;
    ret (mkResponse (merge c updates) true (lit "Course updated successfully") now)
  end.

Definition deleteCourse (i : number) : M World (ApiResponse bool) :=
  simulateNetworkDelay 600 ;;;
  cs <- this_courses ;;
  match findIndex (has_id i) cs with
  | None => throw (not_found i)
  | Some (courseIndex, c) =>
    effect (set_courses (<[courseIndex := deactivate c]> cs)) ;;;
    now <- Date_now ;;
    ret (mkResponse true true (lit "Course deleted successfully") now)
  end.

End MockApiClient.

(** ** The public API *)

Module coursesApi.

Definition retried {T} (operation : M World T) : M World T :=
  withRetry operation (retryAttempts API_CONFIG) (retryDelay API_CONFIG).

Definition getCourses : M World (list Course) :=
  try_catch
    (response <- retried MockApiClient.fetchCourses ;;
     effect (console log
       [Text (lit "[v0] Courses fetched successfully:");
        Num (Z.of_nat (length (data response))); Text (lit "courses")]) ;;;
     ret (data response))
    (fun e =>
       effect (console error
         [Text (lit "[v0] Failed to fetch courses after retries:"); Obj e]) ;;;
       match e with
       | NetworkError msg status =>
         throw (Error (lit "Network error: " ++ msg ++ lit " (Status: "
                       ++ show_Z status ++ lit ")"))
       | ValidationError msg =>
         throw (Error (lit "Validation error: " ++ msg))
       | _ =>
         throw (Error (lit "An unexpected error occurred while fetching courses"))
       end).

Definition getCourse (i : number) : M World Course :=
  try_catch
    (response <- retried (MockApiClient.fetchCourseById i) ;;
     ret (data response))
    (fun e =>
       effect (console error
         [Text (lit "[v0] Failed to fetch course " ++ show_number i ++ lit ":");
          Obj e]) ;;;
       match e with
       | NetworkError _ _ => throw e
       | _ => throw (Error (lit "Failed to fetch course"))
       end).

Definition createCourse (courseData : CourseData) : M World Course :=
  try_catch
    (response <- retried (MockApiClient.createCourse courseData) ;;
     effect (console log
       [Text (lit "[v0] Course created successfully:");
        Text (name (data response))]) ;;;
     ret (data response))
    (fun e =>
       effect (console error [Text (lit "[v0] Failed to create course:"); Obj e]) ;;;
       match e with
       | ValidationError _ => throw e
       | _ => throw (Error (lit "Failed to create course"))
       end).

Definition updateCourse (i : number) (updates : CourseUpdate) : M World Course :=
  try_catch
    (response <- retried (MockApiClient.updateCourse i updates) ;;
     effect (console log
       [Text (lit "[v0] Course updated successfully:");
        Text (name (data response))]) ;;;
     ret (data response))
    (fun e =>
       effect (console error
         [Text (lit "[v0] Failed to update course " ++ show_number i ++ lit ":");
          Obj e]) ;;;
       match e with
       | NetworkError _ _ => throw e
       | _ => throw (Error (lit "Failed to update course"))
       end).

Definition deleteCourse (i : number) : M World bool :=
  try_catch
    (response <- retried (MockApiClient.deleteCourse i) ;;
     effect (console log
       [Text (lit "[v0] Course " ++ show_number i ++ lit " deleted successfully")]) ;;;
     ret (data response))
    (fun e =>
       effect (console error
         [Text (lit "[v0] Failed to delete course " ++ show_number i ++ lit ":");
          Obj e]) ;;;
       match e with
       | NetworkError _ _ => throw e
       | _ => throw (Error (lit "Failed to delete course"))
       end).

End coursesApi.

(** ** [checkApiHealth]

    [Promise.race] settles with whichever promise settles first.  The list
    call is started first and settles once its timers have elapsed; the
    timeout promise rejects 5000ms after the call.  When both fall on the
    same instant the timeout, armed at time 0, fires before the list
    call's latest timer, so the list call wins only when strictly earlier.
    The losing list call is not cancelled: the world returned is the one
    in which it has run to completion. *)
Definition checkApiHealth : M World bool :=
  fun w =>
    let '(healthCheck, w1) := coursesApi.getCourses w in
    let elapsed := clock w1 - clock w in
    let raced :=
      if elapsed <? 5000 then healthCheck
      else Throw (Error (lit "Health check timeout")) in
    match raced with
    | Return _ => (Return true, w1)
    | Throw e =>
      (Return false,
       console error [Text (lit "[v0] API health check failed:"); Obj e] w1)
    end.

(** ** Observing a retry sequence

    To count invocations of an arbitrary operation, the operation is run
    next to a ghost journal it cannot touch: every invocation adds its
    result to the journal, every awaited timer its duration. *)

Inductive Obs :=
| Succeeded
| Failed (e : thrown)
| Slept (ms : Z).

#[export] Instance probe_runtime {W} `{Runtime W} : Runtime (W * list Obs) := {|
  timer ms s := (timer ms (fst s), Slept ms :: snd s);
  console l parts s := (console l parts (fst s), snd s)
|}.

Definition probed {W T} (operation : M W T) : M (W * list Obs) T :=
  fun s =>
    match operation (fst s) with
    | (Return v, w') => (Return v, (w', Succeeded :: snd s))
    | (Throw e, w') => (Throw e, (w', Failed e :: snd s))
    end.

Definition is_invocation (o : Obs) : bool :=
  match o with
  | Slept _ => false
  | _ => true
  end.

Definition invocations (journal : list Obs) : nat :=
  length (List.filter is_invocation journal).

Fixpoint waits (journal : list Obs) : list Z :=
  match journal with
  | [] => []
  | Slept ms :: rest => ms :: waits rest
  | _ :: rest => waits rest
  end.

(** The journal, oldest entry first, of a sequence of failed attempts
    numbered from [attempt] that threw [errors] in turn. *)
Fixpoint schedule (delay attempt : Z) (errors : list thrown) : list Obs :=
  match errors with
  | [] => []
  | e :: rest =>
    match rest with
    | [] => [Failed e]
    | _ => Failed e :: Slept (delay * 2 ^ (attempt - 1))
             :: schedule delay (attempt + 1) rest
    end
  end.

(** ** Vocabulary of the properties *)

(** [Number.MAX_SAFE_INTEGER] *)
Definition MAX_SAFE_INTEGER : Z := 2 ^ 53 - 1.

(** [n] is an integer from which [k] can be counted up without leaving the
    range where integer sums are exact in double arithmetic: it is a safe
    integer, and [n + k] is at most 2^53. *)
Definition room_for (k : Z) (n : number) : Prop :=
  match n with
  | Int z => - MAX_SAFE_INTEGER <= z /\ z + k <= MAX_SAFE_INTEGER + 1
  | NegInf => False
  end.

(** [{ id: -Infinity }] as a partial update. *)
Definition lose_id : CourseUpdate :=
  mkCourseUpdate (Some NegInf) None None None None None None.

(** The durations of the timers awaited, newest first. *)
Fixpoint timers (events : list Event) : list Z :=
  match events with
  | [] => []
  | Timer ms :: rest => ms :: timers rest
  | _ :: rest => timers rest
  end.

(** The errors the retry loop reported ([console.log] with an error
    object), newest first. *)
Fixpoint logged_failures (events : list Event) : list thrown :=
  match events with
  | [] => []
  | Console log [Text _; Obj e] :: rest => e :: logged_failures rest
  | _ :: rest => logged_failures rest
  end.

Definition name_too_short : thrown :=
  ValidationError (lit "Course name must be at least 3 characters long").

Definition service_unavailable : thrown :=
  NetworkError (lit "Service temporarily unavailable") 503.

Definition invalid_request : thrown :=
  ValidationError (lit "Invalid request parameters").

(** What it means for an operation to inject faults the way the list
    operation does: the next sample below 0.10 raises a [NetworkError]
    with status 503; failing that, the sample after it below 0.05 raises a
    [ValidationError]; either way the store is not touched. *)
Definition injects_faults {A} (operation : M World A) : Prop :=
  forall w,
    let r1 := entropy w (drawn w) in
    let r2 := entropy w (S (drawn w)) in
    ((r1 < 1 # 10)%Q ->
       exists msg w', operation w = (Throw (NetworkError msg 503), w')
                      /\ courses w' = courses w)
    /\ (~ (r1 < 1 # 10)%Q -> (r2 < 5 # 100)%Q ->
       exists msg w', operation w = (Throw (ValidationError msg), w')
                      /\ courses w' = courses w).

(** How many of the [n] evenly spaced samples [0/n, 1/n, ..., (n-1)/n]
    lie below [p]. *)
Definition grid_hits (p : Q) (n : nat) : nat :=
  length (List.filter (fun k => if Qlt_le_dec (Z.of_nat k # Pos.of_nat n) p
                                then true else false) (seq 0 n)).

Definition some_course : CourseData :=
  mkCourseData (lit "Data Engineering") None None None None None.

(** The world once [simulateNetworkDelay ms] has resolved. *)
Definition after_latency (ms : Z) (w : World) : World :=
  console log
    [Text (lit "[v0] Network simulation: " ++ show_Z ms ++ lit "ms delay completed")]
    (timer ms w).

(** [operation] reports what [inner] produced: a returned response through
    [project], a thrown error through [rethrow]. *)
Definition at_boundary {T A} (inner : M World T) (project : T -> A)
    (rethrow : thrown -> thrown) (operation : M World A) : Prop :=
  forall w,
    fst (operation w)
    = match fst (inner w) with
      | Return response => Return (project response)
      | Throw e => Throw (rethrow e)
      end.

(** The reading of the specification: no error class other than a plain
    [Error] leaves a public operation. *)
Definition only_plain_errors {A} (operation : M World A) : Prop :=
  forall w e w', operation w = (Throw e, w') -> exists msg, e = Error msg.

(** No two records of the store carry the id [i]. *)
Definition sole_id (i : number) (cs : list Course) : Prop :=
  forall j k cj ck,
    cs !! j = Some cj -> cs !! k = Some ck -> id cj = i -> id ck = i -> j = k.

(** A field after a merge: the supplied value if one was supplied, the old
    value otherwise. *)
Definition merged {A} (old : A) (supplied : option A) (new : A) : Prop :=
  match supplied with
  | Some v => new = v
  | None => new = old
  end.

(** ** Vocabulary of the further properties *)

(** The journal, oldest entry first, of failed attempts numbered from
    [attempt], each followed by its backoff, and then [final]. *)
Fixpoint failures_then (delay attempt : Z) (errors : list thrown)
    (final : list Obs) : list Obs :=
  match errors with
  | [] => final
  | e :: rest =>
    Failed e :: Slept (delay * 2 ^ (attempt - 1))
      :: failures_then delay (attempt + 1) rest final
  end.

Definition total (durations : list Z) : Z := fold_right Z.add 0 durations.

(** [{ isActive: true }] as a partial update. *)
Definition reactivate : CourseUpdate :=
  mkCourseUpdate None None None None None None (Some (Some true)).




(** Whether a list attempt whose first sample is the [n]-th one hits an
    injected fault: if so, whether it is the network fault, and the index
    of the first sample left for the next attempt. *)
Definition fault_at (samples : nat -> Q) (n : nat) : option (bool * nat) :=
  if Qlt_le_dec (samples n) (1 # 10) then Some (true, S n)
  else if Qlt_le_dec (samples (S n)) (5 # 100) then Some (false, S (S n))
  else None.

Definition injected (network : bool) : thrown :=
  if network then service_unavailable else invalid_request.

(** What [getCourses] shows its caller for an injected fault. *)
Definition reported (network : bool) : thrown :=
  if network
  then Error (lit "Network error: Service temporarily unavailable (Status: 503)")
  else Error (lit "Validation error: Invalid request parameters").

Definition active_courses (cs : list Course) : list Course :=
  List.filter (fun course => truthy (isActive course)) cs.

(** ** The dashboard page ([src/app/page.tsx])

    The state hooks the handlers below read or write; the search, sort and
    view hooks are left out.  A handler maps the state before to the state
    after; the asynchronous one also transforms the world. *)

(** [a === b] on strings. *)
Definition jsstring_eqb (a b : jsstring) : bool := bool_decide (a = b).

Record Student := mkStudent {
  s_id : jsstring;
  s_name : jsstring;
  s_email : jsstring;
  s_course : jsstring;
  s_profileImage : option jsstring;
  s_enrollmentDate : jsstring
}.

(** [Omit<Student, "id" | "enrollmentDate">]. *)
Record StudentData := mkStudentData {
  sd_name : jsstring;
  sd_email : jsstring;
  sd_course : jsstring;
  sd_profileImage : option jsstring
}.

Record Dashboard := mkDashboard {
  students : list Student;
  shown_courses : list Course;          (* the [courses] hook *)
  loading : bool;
  shown_error : option jsstring;        (* the [error] hook *)
  editingStudent : option Student;
  isEditDialogOpen : bool;
  deletingStudent : option Student;
  isDeleteDialogOpen : bool;
  apiHealthy : option bool;
  lastFetchTime : option Z;
  retryCount : Z
}.

(** [err instanceof Error ? err.message : fallback] *)
Definition message_or (fallback : jsstring) (err : thrown) : jsstring :=
  match err with
  | NetworkError msg _ | ValidationError msg | Error msg => msg
  | Undefined => fallback
  end.

Module StudentManagementDashboard.

Definition fetchCourses (showRetryCount : bool) (d : Dashboard) (w : World)
    : Dashboard * World :=
  (* setLoading(true); setError(null); setRetryCount(prev => prev + 1) *)
  let count := if showRetryCount then retryCount d + 1 else retryCount d in
  let w := console log [Text (lit "[v0] Starting course fetch operation...")] w in
  match coursesApi.getCourses w with
  | (Return fetchedCourses, w) =>
    (* setCourses; setApiHealthy(true); setLastFetchTime(new Date());
       finally setLoading(false) *)
    (mkDashboard (students d) fetchedCourses false None
       (editingStudent d) (isEditDialogOpen d) (deletingStudent d)
       (isDeleteDialogOpen d) (Some true) (Some (clock w)) count,
     console log [Text (lit "[v0] Course fetch completed successfully")] w)
  | (Throw err, w) =>
    (* setError(errorMessage); setApiHealthy(false); finally setLoading(false) *)
    (mkDashboard (students d) (shown_courses d) false
       (Some (message_or (lit "Failed to fetch courses") err))
       (editingStudent d) (isEditDialogOpen d) (deletingStudent d)
       (isDeleteDialogOpen d) (Some false) (lastFetchTime d) count,
     console error [Text (lit "[v0] Course fetch failed:"); Obj err] w)
  end.

Definition handleUpdateStudent (studentData : StudentData) (d : Dashboard) : Dashboard :=
  match editingStudent d with
  | None => d
  | Some editing =>
    let updatedStudent :=
      mkStudent (s_id editing) (sd_name studentData) (sd_email studentData)
        (sd_course studentData) (sd_profileImage studentData)
        (s_enrollmentDate editing) in
    mkDashboard
      (map (fun student =>
              if jsstring_eqb (s_id student) (s_id editing)
              then updatedStudent else student) (students d))
      (shown_courses d) (loading d) (shown_error d)
      None false (deletingStudent d) (isDeleteDialogOpen d)
      (apiHealthy d) (lastFetchTime d) (retryCount d)
  end.

Definition handleConfirmDelete (studentId : jsstring) (d : Dashboard) : Dashboard :=
  mkDashboard
    (List.filter (fun student => negb (jsstring_eqb (s_id student) studentId))
       (students d))
    (shown_courses d) (loading d) (shown_error d)
    (editingStudent d) (isEditDialogOpen d) None false
    (apiHealthy d) (lastFetchTime d) (retryCount d).

End StudentManagementDashboard.

(** ** The avatar colours ([src/components/dynamic-avatar.tsx]) *)

(** The 32-bit signed integer a bitwise operator turns its operand into. *)
Definition ToInt32 (z : Z) : Z := (z + 2 ^ 31) mod 2 ^ 32 - 2 ^ 31.

Module DynamicAvatar.

Definition hash (str : jsstring) : Z :=
  Z.abs
    (fold_left
       (fun hash char =>
          let hash := ToInt32 (Z.shiftl (ToInt32 hash) 5) - hash + Z.of_N char in
          Z.land (ToInt32 hash) (ToInt32 hash))
       str 0).

Definition hue (name email : jsstring) : Z := Z.rem (hash (name ++ email)) 360.

Definition secondaryHue (name email : jsstring) : Z :=
  Z.rem (hue name email + 60) 360.

End DynamicAvatar.

(** The hash the loop computes, without the wrap-around:
    [c0 * 31^(n-1) + c1 * 31^(n-2) + ... + c(n-1)]. *)
Definition polynomial31 (str : jsstring) : Z :=
  fold_left (fun h char => 31 * h + Z.of_N char) str 0.

(** ** The student form ([src/components/student-form.tsx]) *)

Record File := mkFile {
  f_type : jsstring;
  f_size : Z
}.

Record FormData := mkFormData {
  fd_name : jsstring;
  fd_email : jsstring;
  fd_course : jsstring;
  fd_profileImage : jsstring
}.

Record FormErrors := mkFormErrors {
  fe_name : option jsstring;
  fe_email : option jsstring;
  fe_course : option jsstring;
  fe_general : option jsstring
}.

(** Regular expressions over code units, matched by derivatives. *)
Inductive regex :=
| Void
| Eps
| Class (p : N -> bool)
| Alt (r s : regex)
| Cat (r s : regex)
| Star (r : regex).

Fixpoint nullable (r : regex) : bool :=
  match r with
  | Void => false
  | Eps => true
  | Class _ => false
  | Alt r s => nullable r || nullable s
  | Cat r s => nullable r && nullable s
  | Star _ => true
  end.

Fixpoint deriv (c : N) (r : regex) : regex :=
  match r with
  | Void => Void
  | Eps => Void
  | Class p => if p c then Eps else Void
  | Alt r s => Alt (deriv c r) (deriv c s)
  | Cat r s =>
    if nullable r then Alt (Cat (deriv c r) s) (deriv c s)
    else Cat (deriv c r) s
  | Star r => Cat (deriv c r) (Star r)
  end.

(** [/^r$/.test(s)] *)
Definition regex_test (r : regex) (s : jsstring) : bool :=
  nullable (fold_left (fun r c => deriv c r) s r).

(** [r+] *)
Definition plus (r : regex) : regex := Cat r (Star r).

(** The strings a regular expression denotes. *)
Inductive lang : regex -> jsstring -> Prop :=
| lang_Eps : lang Eps []
| lang_Class p c : p c = true -> lang (Class p) [c]
| lang_Alt_l r s a : lang r a -> lang (Alt r s) a
| lang_Alt_r r s a : lang s a -> lang (Alt r s) a
| lang_Cat r s a b : lang r a -> lang s b -> lang (Cat r s) (a ++ b)
| lang_Star_nil r : lang (Star r) []
| lang_Star_more r a b : lang r a -> lang (Star r) b -> lang (Star r) (a ++ b).

(** [[^\s@]] *)
Definition not_space_or_at (u : N) : bool :=
  negb (isWhiteSpace u || (u =? 64)%N).

Module StudentForm.

(** [/^[^\s@]+@[^\s@]+\.[^\s@]+$/] *)
Definition emailRegex : regex :=
  Cat (plus (Class not_space_or_at))
    (Cat (Class (N.eqb 64))
       (Cat (plus (Class not_space_or_at))
          (Cat (Class (N.eqb 46)) (plus (Class not_space_or_at))))).

Definition validateEmail (email : jsstring) : bool := regex_test emailRegex email.

Definition validateForm (formData : FormData) : FormErrors :=
  mkFormErrors
    (if negb (nonempty (trim (fd_name formData)))
     then Some (lit "Name is required")
     else if (Z.of_nat (length (trim (fd_name formData))) <? 2)
     then Some (lit "Name must be at least 2 characters")
     else None)
    (if negb (nonempty (trim (fd_email formData)))
     then Some (lit "Email is required")
     else if negb (validateEmail (fd_email formData))
     then Some (lit "Please enter a valid email address")
     else None)
    (if negb (nonempty (fd_course formData))
     then Some (lit "Please select a course")
     else None)
    None.

Definition validateFile (file : File) : option jsstring :=
  let maxSize := 5 * 1024 * 1024 in
  let allowedTypes :=
    [lit "image/jpeg"; lit "image/jpg"; lit "image/png"; lit "image/gif";
     lit "image/webp"] in
  if negb (existsb (jsstring_eqb (f_type file)) allowedTypes) then
    Some (lit "Please upload a valid image file (JPEG, PNG, GIF, or WebP)")
  else if f_size file >? maxSize then
    Some (lit "File size must be less than 5MB")
  else None.

End StudentForm.

(** * Properties *)

(** ** The retry loop *)

Section RetryFacts.
Context {W : Type} `{Runtime W} {T : Type}.
Implicit Types (operation : M W T) (w : W).

(** One iteration of the loop. *)
Lemma attempts_S fuel operation maxAttempts delay attempt lastError w :
  attempts (S fuel) operation maxAttempts delay attempt lastError w
  = if attempt <=? maxAttempts then
      match operation (console log
        [Text (lit "[v0] API attempt " ++ show_Z attempt ++ lit "/"
               ++ show_Z maxAttempts)] w) with
      | (Return v, w1) => (Return v, w1)
      | (Throw e, w1) =>
        let w2 := console log
          [Text (lit "[v0] Attempt " ++ show_Z attempt ++ lit " failed:");
           Obj e] w1 in
        if attempt =? maxAttempts then (Throw e, w2)
        else
          attempts fuel operation maxAttempts delay (attempt + 1) (Some e)
            (timer (delay * 2 ^ (attempt - 1))
               (console log
                  [Text (lit "[v0] Retrying in "
                         ++ show_Z (delay * 2 ^ (attempt - 1)) ++ lit "ms...")]
                  w2))
      end
    else (Throw (unwrap lastError), w).
Proof. reflexivity. Qed.

(** The three ways an iteration can go. *)
Lemma attempts_return fuel operation maxAttempts delay attempt lastError w v w1 :
  attempt <= maxAttempts ->
  operation (console log
    [Text (lit "[v0] API attempt " ++ show_Z attempt ++ lit "/"
           ++ show_Z maxAttempts)] w) = (Return v, w1) ->
  attempts (S fuel) operation maxAttempts delay attempt lastError w = (Return v, w1).
Proof.
  intros Hle Hop. rewrite attempts_S, Hop.
  destruct (Z.leb_spec attempt maxAttempts); [reflexivity | lia].
Qed.

Lemma attempts_give_up fuel operation maxAttempts delay lastError w e w1 :
  operation (console log
    [Text (lit "[v0] API attempt " ++ show_Z maxAttempts ++ lit "/"
           ++ show_Z maxAttempts)] w) = (Throw e, w1) ->
  attempts (S fuel) operation maxAttempts delay maxAttempts lastError w
  = (Throw e,
     console log
       [Text (lit "[v0] Attempt " ++ show_Z maxAttempts ++ lit " failed:"); Obj e] w1).
Proof.
  intros Hop. rewrite attempts_S, Hop, Z.leb_refl, Z.eqb_refl. reflexivity.
Qed.

Lemma attempts_again fuel operation maxAttempts delay attempt lastError w e w1 :
  attempt < maxAttempts ->
  operation (console log
    [Text (lit "[v0] API attempt " ++ show_Z attempt ++ lit "/"
           ++ show_Z maxAttempts)] w) = (Throw e, w1) ->
  attempts (S fuel) operation maxAttempts delay attempt lastError w
  = attempts fuel operation maxAttempts delay (attempt + 1) (Some e)
      (timer (delay * 2 ^ (attempt - 1))
         (console log
            [Text (lit "[v0] Retrying in " ++ show_Z (delay * 2 ^ (attempt - 1))
                   ++ lit "ms...")]
            (console log
               [Text (lit "[v0] Attempt " ++ show_Z attempt ++ lit " failed:");
                Obj e] w1))).
Proof.
  intros Hlt Hop. rewrite attempts_S, Hop.
  destruct (Z.leb_spec attempt maxAttempts); [|lia].
  cbv zeta. destruct (Z.eqb_spec attempt maxAttempts); [lia | reflexivity].
Qed.

(** Past the last attempt the loop has exited, whatever fuel is left. *)
Lemma attempts_exit fuel operation maxAttempts delay attempt lastError w :
  maxAttempts < attempt ->
  attempts fuel operation maxAttempts delay attempt lastError w
  = (Throw (unwrap lastError), w).
Proof.
  intros Hgt. destruct fuel as [|fuel]; [reflexivity|]. simpl.
  destruct (Z.leb_spec attempt maxAttempts); [lia | reflexivity].
Qed.

(** The fuel [withRetry] supplies is never what stops the loop: one unit
    per remaining attempt is enough, and more changes nothing. *)
Lemma attempts_fuel fuel operation maxAttempts delay attempt lastError w :
  (Z.to_nat (maxAttempts + 1 - attempt) <= fuel)%nat ->
  attempts (S fuel) operation maxAttempts delay attempt lastError w
  = attempts fuel operation maxAttempts delay attempt lastError w.
Proof.
  revert attempt lastError w.
  induction fuel as [|fuel IH]; intros attempt lastError w Hfuel.
  - rewrite attempts_exit by lia. reflexivity.
  - rewrite (attempts_S (S fuel)), (attempts_S fuel).
    destruct (Z.leb_spec attempt maxAttempts); [|reflexivity].
    destruct (operation _) as [[v|e] w1]; [reflexivity|].
    cbv zeta. destruct (Z.eqb_spec attempt maxAttempts); [reflexivity|].
    apply IH. lia.
Qed.

(** Whatever the loop throws, the operation threw. *)
Lemma attempts_throws (Q : thrown -> Prop) fuel operation maxAttempts delay :
  (forall u e1 u1, operation u = (Throw e1, u1) -> Q e1) ->
  forall attempt lastError w e w',
    (Z.to_nat (maxAttempts + 1 - attempt) <= fuel)%nat ->
    attempt <= maxAttempts \/ Q (unwrap lastError) ->
    attempts fuel operation maxAttempts delay attempt lastError w = (Throw e, w') ->
    Q e.
Proof.
  intros Hop. induction fuel as [|fuel IH]; intros attempt lastError w e w' Hfuel Hlast.
  - cbn [attempts]. intros [= <- _]. destruct Hlast; [lia | assumption].
  - rewrite attempts_S. destruct (Z.leb_spec attempt maxAttempts).
    + destruct (operation _) as [[v|e1] w1] eqn:Hrun; [discriminate|].
      cbv zeta. destruct (Z.eqb_spec attempt maxAttempts).
      * intros [= <- _]. eapply Hop, Hrun.
      * apply IH; [lia|]. right. eapply Hop, Hrun.
    + intros [= <- _]. destruct Hlast; [lia | assumption].
Qed.

(** A first attempt that succeeds is the whole call. *)
Lemma withRetry_first_success operation maxAttempts delay w v w1 :
  1 <= maxAttempts ->
  operation (console log
    [Text (lit "[v0] API attempt " ++ show_Z 1 ++ lit "/" ++ show_Z maxAttempts)] w)
  = (Return v, w1) ->
  withRetry operation maxAttempts delay w = (Return v, w1).
Proof.
  intros Hmax Hop. unfold withRetry.
  destruct (Z.to_nat maxAttempts) as [|fuel] eqn:Hfuel; [lia|].
  cbn [attempts]. destruct (Z.leb_spec 1 maxAttempts); [|lia].
  rewrite Hop. reflexivity.
Qed.

End RetryFacts.

(** *** The shape of a journal of failures *)

Lemma schedule_cons delay attempt e e' rest :
  schedule delay attempt (e :: e' :: rest)
  = Failed e :: Slept (delay * 2 ^ (attempt - 1))
      :: schedule delay (attempt + 1) (e' :: rest).
Proof. reflexivity. Qed.

Lemma schedule_invocations delay attempt errors :
  invocations (schedule delay attempt errors) = length errors.
Proof.
  revert attempt. induction errors as [|e [|e' rest] IH]; intros attempt;
    [reflexivity..|].
  rewrite schedule_cons. unfold invocations in *. cbn [List.filter is_invocation length].
  f_equal. apply IH.
Qed.

Lemma schedule_last delay attempt errors e :
  last errors = Some e -> last (schedule delay attempt errors) = Some (Failed e).
Proof.
  revert attempt. induction errors as [|e0 [|e' rest] IH]; intros attempt Hlast.
  - discriminate.
  - cbn in Hlast |- *. congruence.
  - rewrite schedule_cons. change (last (e0 :: e' :: rest)) with (last (e' :: rest)) in Hlast.
    specialize (IH (attempt + 1) Hlast).
    destruct (schedule delay (attempt + 1) (e' :: rest)) eqn:E; [discriminate|].
    exact IH.
Qed.

Lemma schedule_waits_length delay attempt errors :
  length (waits (schedule delay attempt errors)) = (length errors - 1)%nat.
Proof.
  revert attempt. induction errors as [|e [|e' rest] IH]; intros attempt;
    [reflexivity..|].
  rewrite schedule_cons. cbn [waits length]. rewrite IH. cbn [length]. lia.
Qed.

(** The wait after the attempt numbered [attempt + i]. *)
Lemma schedule_waits_lookup delay attempt errors (i : nat) :
  (S i < length errors)%nat ->
  waits (schedule delay attempt errors) !! i
  = Some (delay * 2 ^ (attempt + Z.of_nat i - 1)).
Proof.
  revert attempt i. induction errors as [|e [|e' rest] IH]; intros attempt i Hi;
    [cbn in Hi; lia..|].
  rewrite schedule_cons. cbn [waits]. destruct i as [|i].
  - cbn. do 3 f_equal. lia.
  - cbn [lookup list_lookup]. rewrite IH by (cbn [length] in *; lia).
    do 3 f_equal. lia.
Qed.

(** The journal is a bystander: next to it the loop does what it does
    without it. *)
Lemma attempts_probed {W : Type} `{Runtime W} {T : Type} (operation : M W T)
    maxAttempts delay fuel :
  forall attempt lastError w journal,
    attempts fuel operation maxAttempts delay attempt lastError w
    = (fst (attempts fuel (probed operation) maxAttempts delay attempt lastError
              (w, journal)),
       fst (snd (attempts fuel (probed operation) maxAttempts delay attempt lastError
                   (w, journal)))).
Proof.
  induction fuel as [|fuel IH]; intros attempt lastError w journal; [reflexivity|].
  rewrite !attempts_S. destruct (attempt <=? maxAttempts); [|reflexivity].
  unfold probed at 1 3. cbn [console probe_runtime fst snd].
  destruct (operation _) as [[v|e] w1]; [reflexivity|].
  cbv zeta. destruct (attempt =? maxAttempts); [reflexivity|].
  cbn [timer console probe_runtime fst snd]. apply IH.
Qed.

Section Exhaustion.
Context {W : Type} `{Runtime W} {T : Type}.
Variable operation : M W T.
Hypothesis always_throws : forall w, exists e w', operation w = (Throw e, w').

(** With [k + 1] attempts left, a loop over an operation that always
    throws makes all of them, sleeping in between, and throws what the
    last one threw. *)
Lemma attempts_exhaust (k : nat) :
  forall maxAttempts delay attempt lastError w journal,
    maxAttempts = attempt + Z.of_nat k ->
    exists errors w',
      attempts (S k) (probed operation) maxAttempts delay attempt lastError
        (w, journal)
      = (Throw (default Undefined (last errors)),
         (w', rev (schedule delay attempt errors) ++ journal))
      /\ length errors = S k.
Proof.
  induction k as [|k IH]; intros maxAttempts delay attempt lastError w journal Hmax.
  - rewrite attempts_S. destruct (Z.leb_spec attempt maxAttempts); [|lia].
    unfold probed at 1. cbn [console probe_runtime fst snd].
    destruct (always_throws (console log
      [Text (lit "[v0] API attempt " ++ show_Z attempt ++ lit "/"
             ++ show_Z maxAttempts)] w)) as (e & w1 & ->).
    cbv zeta. destruct (Z.eqb_spec attempt maxAttempts); [|lia].
    exists [e]. eexists. split; reflexivity.
  - rewrite attempts_S. destruct (Z.leb_spec attempt maxAttempts); [|lia].
    unfold probed at 1. cbn [console probe_runtime fst snd].
    destruct (always_throws (console log
      [Text (lit "[v0] API attempt " ++ show_Z attempt ++ lit "/"
             ++ show_Z maxAttempts)] w)) as (e & w1 & ->).
    cbv zeta. destruct (Z.eqb_spec attempt maxAttempts); [lia|].
    cbn [timer console probe_runtime fst snd].
    edestruct (IH maxAttempts delay (attempt + 1) (Some e)) as (errors & w' & Hrun & Hlen);
      [lia|].
    rewrite Hrun. destruct errors as [|e' rest]; [discriminate|].
    exists (e :: e' :: rest), w'. split; [|cbn [length] in *; lia].
    rewrite schedule_cons. cbn [rev]. rewrite <- !app_assoc. reflexivity.
Qed.

Lemma withRetry_exhaust maxAttempts delay w :
  1 <= maxAttempts ->
  exists errors w',
    withRetry (probed operation) maxAttempts delay (w, [])
    = (Throw (default Undefined (last errors)),
       (w', rev (schedule delay 1 errors)))
    /\ Z.of_nat (length errors) = maxAttempts.
Proof.
  intros Hmax. unfold withRetry.
  destruct (Z.to_nat maxAttempts) as [|k] eqn:Hk; [lia|].
  destruct (attempts_exhaust k maxAttempts delay 1 None w [])
    as (errors & w' & Hrun & Hlen); [lia|].
  exists errors, w'. rewrite Hrun, app_nil_r. split; [reflexivity | lia].
Qed.

End Exhaustion.

(** C1. An operation that throws on every invocation is invoked exactly
    [maxAttempts] times by [withRetry] (for [maxAttempts >= 1]); the call
    then throws the error of the last invocation, with or without the
    journal beside it; the journal alternates failed invocations and
    waits, and the wait after the n-th failure, for [n < maxAttempts],
    lasts [baseDelay * 2^(n-1)] ms. *)
Theorem withRetry_always_failing {W : Type} `{Runtime W} {T : Type}
    (operation : M W T) (maxAttempts baseDelay : Z) (w : W) :
  1 <= maxAttempts ->
  (forall w0, exists e w1, operation w0 = (Throw e, w1)) ->
  exists (e : thrown) (w' : W) (history : list Obs),
    withRetry operation maxAttempts baseDelay w = (Throw e, w')
    /\ withRetry (probed operation) maxAttempts baseDelay (w, [])
       = (Throw e, (w', rev history))
    /\ Z.of_nat (invocations history) = maxAttempts
    /\ last history = Some (Failed e)
    /\ (exists errors, history = schedule baseDelay 1 errors)
    /\ Z.of_nat (length (waits history)) = maxAttempts - 1
    /\ forall n, 1 <= n < maxAttempts ->
         waits history !! Z.to_nat (n - 1) = Some (baseDelay * 2 ^ (n - 1)).
Proof.
  intros Hmax Hfail.
  destruct (withRetry_exhaust operation Hfail maxAttempts baseDelay w Hmax)
    as (errors & w' & Hrun & Hlen).
  destruct (last errors) as [e|] eqn:Hlast.
  2: { apply last_None in Hlast. subst errors. cbn in Hlen. lia. }
  exists e, w', (schedule baseDelay 1 errors). cbn [default] in Hrun.
  split.
  { unfold withRetry in *. rewrite (attempts_probed operation _ _ _ _ _ w []), Hrun.
    reflexivity. }
  split; [exact Hrun|]. split; [rewrite schedule_invocations; exact Hlen|].
  split; [apply schedule_last; exact Hlast|]. split; [eauto|].
  split; [rewrite schedule_waits_length; lia|].
  intros n Hn. rewrite schedule_waits_lookup by lia. do 3 f_equal. lia.
Qed.

Lemma withRetry_always_failing_witness :
  exists (e : thrown) (w' : World) (history : list Obs),
    withRetry (throw (A:=unit) (NetworkError (lit "down") 503)) 3 1000
      (boot (fun _ => 0%Q))
    = (Throw e, w')
    /\ withRetry (probed (throw (A:=unit) (NetworkError (lit "down") 503))) 3 1000
         (boot (fun _ => 0%Q), [])
       = (Throw e, (w', rev history))
    /\ Z.of_nat (invocations history) = 3
    /\ last history = Some (Failed e)
    /\ (exists errors, history = schedule 1000 1 errors)
    /\ Z.of_nat (length (waits history)) = 3 - 1
    /\ forall n, 1 <= n < 3 ->
         waits history !! Z.to_nat (n - 1) = Some (1000 * 2 ^ (n - 1)).
Proof.
  apply withRetry_always_failing; [lia|].
  intros w0. exists (NetworkError (lit "down") 503), w0. reflexivity.
Defined.

(** With the default base delay the waits are 1000ms, 2000ms, 4000ms. *)
Example withRetry_default_backoff :
  snd (snd (withRetry (probed (throw (A:=unit) Undefined)) 4
              (retryDelay API_CONFIG) (boot (fun _ => 0%Q), [])))
  = [Failed Undefined; Slept 4000; Failed Undefined; Slept 2000;
     Failed Undefined; Slept 1000; Failed Undefined].
Proof. vm_compute. reflexivity. Qed.

(** An operation that fails twice and then succeeds: the value comes back
    after waits of 1000ms and 2000ms. *)
Example withRetry_third_time_lucky :
  let flaky : M World Z := fun w =>
    if (drawn w <? 2)%nat then (bind Math_random (fun _ => throw Undefined)) w
    else (Return 42, w) in
  exists w',
    withRetry (probed flaky) 3 1000 (boot (fun _ => 0%Q), [])
    = (Return 42, (w', [Succeeded; Slept 2000; Failed Undefined; Slept 1000;
                        Failed Undefined])).
Proof. eexists. vm_compute. reflexivity. Qed.

(** ** Rejected creations *)

Lemma client_createCourse_rejects courseData w :
  (length (trim (d_name courseData)) < 3)%nat ->
  MockApiClient.createCourse courseData w
  = (Throw name_too_short,
     console log
       [Text (lit "[v0] Network simulation: " ++ show_Z 1200
              ++ lit "ms delay completed")]
       (timer 1200 w)).
Proof.
  intros Hshort. unfold MockApiClient.createCourse, simulateNetworkDelay, bind, effect.
  destruct (Z.ltb_spec (Z.of_nat (length (trim (d_name courseData)))) 3); [|lia].
  rewrite orb_true_r. reflexivity.
Qed.

(** C2. The retry loop retries whatever was thrown.  A public
    [createCourse] whose name has fewer than 3 characters once trimmed
    invokes the store operation three times (the configured maximum) with
    backoffs of 1000ms and 2000ms, every attempt throws the
    [ValidationError], the store is left as it was, and the call fails
    with that [ValidationError]. *)
Theorem createCourse_short_name_exhausts_retries (courseData : CourseData) (w : World) :
  (length (trim (d_name courseData)) < 3)%nat ->
  (exists w',
     coursesApi.createCourse courseData w = (Throw name_too_short, w')
     /\ courses w' = courses w
     /\ clock w' = clock w + 6600
     /\ timers (timeline w') = [1200; 2000; 1200; 1000; 1200] ++ timers (timeline w)
     /\ logged_failures (timeline w')
        = [name_too_short; name_too_short; name_too_short]
            ++ logged_failures (timeline w))
  /\ (exists w',
     withRetry (probed (MockApiClient.createCourse courseData))
       (retryAttempts API_CONFIG) (retryDelay API_CONFIG) (w, [])
     = (Throw name_too_short,
        (w', [Failed name_too_short; Slept 2000; Failed name_too_short;
              Slept 1000; Failed name_too_short])))
  /\ (forall e : thrown, exists w',
     withRetry (probed (throw (A:=unit) e))
       (retryAttempts API_CONFIG) (retryDelay API_CONFIG) (w, [])
     = (Throw e, (w', [Failed e; Slept 2000; Failed e; Slept 1000; Failed e]))).
Proof.
  intros Hshort. split; [|split].
  - unfold coursesApi.createCourse, try_catch, bind, coursesApi.retried, withRetry.
    change (Z.to_nat (retryAttempts API_CONFIG)) with 3%nat.
    change (retryAttempts API_CONFIG) with 3. change (retryDelay API_CONFIG) with 1000.
    do 3 (rewrite attempts_S, client_createCourse_rejects by exact Hshort;
          cbv beta iota zeta).
    eexists. split; [reflexivity|]. split; [reflexivity|].
    split; [cbn; lia|]. split; reflexivity.
  - unfold withRetry.
    change (Z.to_nat (retryAttempts API_CONFIG)) with 3%nat.
    change (retryAttempts API_CONFIG) with 3. change (retryDelay API_CONFIG) with 1000.
    do 3 (rewrite attempts_S; unfold probed at 1; cbn [console timer probe_runtime fst snd];
          rewrite client_createCourse_rejects by exact Hshort;
          cbv beta iota zeta).
    eexists. reflexivity.
  - intros e. eexists. reflexivity.
Qed.

Lemma createCourse_short_name_exhausts_retries_witness :
  let courseData :=
    mkCourseData (lit "  ab ") None None None (Some (Int 7)) (Some false) in
  let w := boot (fun _ => 0%Q) in
  (length (trim (d_name courseData)) < 3)%nat
  /\ exists w',
       coursesApi.createCourse courseData w = (Throw name_too_short, w')
       /\ courses w' = courses w.
Proof.
  intros courseData w.
  assert (Hshort : (length (trim (d_name courseData)) < 3)%nat) by (vm_compute; lia).
  split; [exact Hshort|].
  destruct (createCourse_short_name_exhausts_retries courseData w Hshort)
    as [(w' & Hrun & Hstore & _) _].
  exists w'. split; assumption.
Defined.


(** ** The list operation and the health check *)

Lemma clock_console l parts w : clock (console l parts w) = clock w.
Proof. reflexivity. Qed.

Lemma clock_timer ms w : clock (timer ms w) = clock w + Z.max 0 ms.
Proof. reflexivity. Qed.

Lemma courses_console l parts w : courses (console l parts w) = courses w.
Proof. reflexivity. Qed.

Lemma courses_timer ms w : courses (timer ms w) = courses w.
Proof. reflexivity. Qed.

(** One invocation of the list operation takes 800ms and leaves the store
    alone, whatever its outcome. *)
Lemma fetchCourses_frame w r w1 :
  MockApiClient.fetchCourses w = (r, w1) ->
  clock w1 = clock w + 800 /\ courses w1 = courses w.
Proof.
  unfold MockApiClient.fetchCourses, simulateNetworkDelay, bind, effect, Math_random,
    this_courses, Date_now, throw, ret.
  repeat destruct (Qlt_le_dec _ _); intros [= <- <-]; split; reflexivity.
Qed.

(** A public list call lasts 800ms, 2600ms or 5400ms (one, two or three
    attempts with the backoffs in between); a failing one always 5400ms. *)
Lemma getCourses_elapsed w r w1 :
  coursesApi.getCourses w = (r, w1) ->
  (clock w1 - clock w = 800 \/ clock w1 - clock w = 2600 \/ clock w1 - clock w = 5400)
  /\ courses w1 = courses w
  /\ ((exists e, r = Throw e) -> clock w1 - clock w = 5400).
Proof.
  unfold coursesApi.getCourses, try_catch, bind, coursesApi.retried, withRetry.
  change (Z.to_nat (retryAttempts API_CONFIG)) with 3%nat.
  change (retryAttempts API_CONFIG) with 3. change (retryDelay API_CONFIG) with 1000.
  rewrite attempts_S. cbv beta iota zeta.
  change (1 <=? 3) with true. cbv iota.
  destruct (MockApiClient.fetchCourses _) as [[r1|e1] u1] eqn:E1;
    apply fetchCourses_frame in E1 as [Hc1 Hs1].
  { intros [= <- <-]. cbn [effect clock courses record console World_runtime] in *.
    rewrite Hc1, Hs1. split; [lia|]. split; [reflexivity|]. intros [e [=]]. }
  change (1 =? 3) with false. cbv iota.
  rewrite attempts_S. cbv beta iota zeta.
  change (1 + 1 <=? 3) with true. cbv iota.
  destruct (MockApiClient.fetchCourses _) as [[r2|e2] u2] eqn:E2;
    apply fetchCourses_frame in E2 as [Hc2 Hs2].
  { intros [= <- <-].
    cbn [effect clock courses record advance console timer World_runtime] in *.
    rewrite Hc2, Hs2, Hc1, Hs1. split; [lia|]. split; [reflexivity|]. intros [e [=]]. }
  change (1 + 1 =? 3) with false. cbv iota.
  rewrite attempts_S. cbv beta iota zeta.
  change (1 + 1 + 1 <=? 3) with true. cbv iota.
  destruct (MockApiClient.fetchCourses _) as [[r3|e3] u3] eqn:E3;
    apply fetchCourses_frame in E3 as [Hc3 Hs3].
  { intros [= <- <-].
    cbn [effect clock courses record advance console timer World_runtime] in *.
    rewrite Hc3, Hs3, Hc2, Hs2, Hc1, Hs1. split; [lia|]. split; [reflexivity|].
    intros [e [=]]. }
  change (1 + 1 + 1 =? 3) with true. cbv iota.
  cbn [effect clock courses record advance console timer World_runtime] in *.
  assert (Hclock : clock u3 - clock w = 5400) by (rewrite Hc3, Hc2, Hc1; lia).
  assert (Hstore : courses u3 = courses w) by (rewrite Hs3, Hs2, Hs1; reflexivity).
  destruct e3; intros [= <- <-]; cbn [clock courses record]; auto.
Qed.

(** C3. [checkApiHealth] always resolves, and to a boolean: [true] exactly
    when the list call succeeds strictly before the 5000ms timeout,
    [false] when the timeout comes first or the list call fails. *)
Theorem checkApiHealth_resolves_to_boolean (w : World) :
  exists (healthy : bool) (w' : World),
    checkApiHealth w = (Return healthy, w')
    /\ let listed := fst (coursesApi.getCourses w) in
       let elapsed := clock (snd (coursesApi.getCourses w)) - clock w in
       (healthy = true <-> (exists cs, listed = Return cs) /\ elapsed < 5000)
       /\ (5000 <= elapsed -> healthy = false)
       /\ ((exists e, listed = Throw e) -> healthy = false)
       /\ (elapsed = 800 \/ elapsed = 2600 \/ elapsed = 5400).
Proof.
  unfold checkApiHealth.
  destruct (coursesApi.getCourses w) as [r w1] eqn:Hlist.
  destruct (getCourses_elapsed w r w1 Hlist) as (Hcases & _ & _).
  cbn [fst snd]. cbv zeta.
  destruct (Z.ltb_spec (clock w1 - clock w) 5000) as [Hfast|Hslow];
    destruct r as [cs|e]; eexists _, _; (split; [reflexivity|]);
    repeat split; try discriminate; try lia; try (intros; exact Hcases); eauto.
  all: try (intros [[cs' [=]] _]); try (intros [_ ?]; lia); try (intros [? [=]]).
Qed.

(** Two injected faults followed by a good attempt: the list call succeeds
    after 5400ms, too late for the health check. *)
Example checkApiHealth_late_success :
  let samples := fun n : nat => if (n <? 2)%nat then 0%Q else (1 # 2)%Q in
  (exists cs, fst (coursesApi.getCourses (boot samples)) = Return cs)
  /\ fst (checkApiHealth (boot samples)) = Return false.
Proof. split; [eexists|]; vm_compute; reflexivity. Qed.

Example checkApiHealth_healthy :
  fst (checkApiHealth (boot (fun _ => (1 # 2)%Q))) = Return true.
Proof. vm_compute. reflexivity. Qed.

(** ** Fault injection *)

(** The outcome of one list invocation, by the two samples it may draw. *)
Lemma fetchCourses_cases w :
  let r1 := entropy w (drawn w) in
  let r2 := entropy w (S (drawn w)) in
  exists w',
    MockApiClient.fetchCourses w
    = (if Qlt_le_dec r1 (1 # 10) then (Throw service_unavailable, w')
       else if Qlt_le_dec r2 (5 # 100) then (Throw invalid_request, w')
       else (Return (mkResponse
               (List.filter (fun course => truthy (isActive course)) (courses w))
               true (lit "Courses fetched successfully") (clock w + 800)), w'))
    /\ courses w' = courses w
    /\ timeline w' = Console log
         [Text (lit "[v0] Network simulation: " ++ show_Z 800
                ++ lit "ms delay completed")] :: Timer 800 :: timeline w
    /\ drawn w' = (if Qlt_le_dec r1 (1 # 10) then S (drawn w) else S (S (drawn w))).
Proof.
  unfold MockApiClient.fetchCourses, simulateNetworkDelay, bind, effect, Math_random,
    this_courses, Date_now, throw, ret.
  cbn [entropy drawn courses clock timeline record advance console timer World_runtime].
  repeat destruct (Qlt_le_dec _ _); eexists; repeat split; reflexivity.
Qed.

(** C4, as the code has it.  Only the list operation injects faults:
    after its 800ms latency and without touching the store it draws a
    sample and throws a [NetworkError] with status 503 when the sample is
    below 0.10 (10 of 100 evenly spaced samples); otherwise it draws a
    second sample and throws a [ValidationError] when that one is below
    0.05 (5 of 100); otherwise it answers from the store.  Get-by-id,
    create, update and delete draw no sample at all. *)
Theorem fault_injection_only_in_fetchCourses :
  injects_faults MockApiClient.fetchCourses
  /\ (forall w,
        ~ (entropy w (drawn w) < 1 # 10)%Q ->
        ~ (entropy w (S (drawn w)) < 5 # 100)%Q ->
        exists response w',
          MockApiClient.fetchCourses w = (Return response, w')
          /\ data response
             = List.filter (fun course => truthy (isActive course)) (courses w))
  /\ (forall w, timers (timeline (snd (MockApiClient.fetchCourses w)))
                = 800 :: timers (timeline w))
  /\ grid_hits (1 # 10) 100 = 10%nat
  /\ grid_hits (5 # 100) 100 = 5%nat
  /\ (forall i w, drawn (snd (MockApiClient.fetchCourseById i w)) = drawn w)
  /\ (forall courseData w,
        drawn (snd (MockApiClient.createCourse courseData w)) = drawn w)
  /\ (forall i updates w,
        drawn (snd (MockApiClient.updateCourse i updates w)) = drawn w)
  /\ (forall i w, drawn (snd (MockApiClient.deleteCourse i w)) = drawn w).
Proof.
  split; [|split; [|split; [|split; [|split; [|split; [|split; [|split]]]]]]].
  - intros w r1 r2. destruct (fetchCourses_cases w) as (w' & Hrun & Hstore & _).
    fold r1 r2 in Hrun. split.
    + intros Hlt. destruct (Qlt_le_dec r1 (1 # 10)) as [_|Hge].
      * eexists _, w'. split; [exact Hrun | exact Hstore].
      * exfalso. exact (Qlt_not_le _ _ Hlt Hge).
    + intros Hnlt Hlt2. destruct (Qlt_le_dec r1 (1 # 10)) as [Hlt|_]; [contradiction|].
      destruct (Qlt_le_dec r2 (5 # 100)) as [_|Hge].
      * eexists _, w'. split; [exact Hrun | exact Hstore].
      * exfalso. exact (Qlt_not_le _ _ Hlt2 Hge).
  - intros w Hn1 Hn2. destruct (fetchCourses_cases w) as (w' & Hrun & _).
    cbv zeta in Hrun.
    destruct (Qlt_le_dec _ _); [contradiction|].
    destruct (Qlt_le_dec _ _); [contradiction|].
    eexists _, w'. split; [exact Hrun | reflexivity].
  - intros w. destruct (fetchCourses_cases w) as (w' & Hrun & _ & Htl & _).
    cbv zeta in Hrun. rewrite Hrun.
    repeat destruct (Qlt_le_dec _ _); cbn [snd]; rewrite Htl; reflexivity.
  - vm_compute. reflexivity.
  - vm_compute. reflexivity.
  - intros i w. unfold MockApiClient.fetchCourseById, simulateNetworkDelay, bind, effect,
      this_courses, Date_now, throw, ret.
    destruct (find _ _); reflexivity.
  - intros courseData w. unfold MockApiClient.createCourse, simulateNetworkDelay, bind,
      effect, this_courses, Date_now, throw, ret.
    destruct (_ || _); reflexivity.
  - intros i updates w. unfold MockApiClient.updateCourse, simulateNetworkDelay, bind,
      effect, this_courses, Date_now, throw, ret.
    destruct (findIndex _ _) as [[? ?]|]; reflexivity.
  - intros i w. unfold MockApiClient.deleteCourse, simulateNetworkDelay, bind,
      effect, this_courses, Date_now, throw, ret.
    destruct (findIndex _ _) as [[? ?]|]; reflexivity.
Qed.

Lemma fault_injection_only_in_fetchCourses_witness :
  let w := boot (fun _ => (1 # 2)%Q) in
  ~ (entropy w (drawn w) < 1 # 10)%Q
  /\ ~ (entropy w (S (drawn w)) < 5 # 100)%Q
  /\ exists response w',
       MockApiClient.fetchCourses w = (Return response, w')
       /\ data response
          = List.filter (fun course => truthy (isActive course)) (courses w).
Proof.
  intros w.
  assert (H1 : ~ (entropy w (drawn w) < 1 # 10)%Q) by (cbn; unfold Qlt; cbn; lia).
  assert (H2 : ~ (entropy w (S (drawn w)) < 5 # 100)%Q) by (cbn; unfold Qlt; cbn; lia).
  split; [exact H1|]. split; [exact H2|].
  destruct fault_injection_only_in_fetchCourses as (_ & Hserves & _).
  exact (Hserves w H1 H2).
Defined.

(** Get-by-id, create, update and delete do not inject faults: with a
    first sample of 0, which the list operation turns into a 503, each of
    them succeeds on the seeded store. *)
Lemma siblings_inject_no_faults :
  ~ injects_faults (MockApiClient.fetchCourseById (Int 1))
  /\ ~ injects_faults (MockApiClient.createCourse some_course)
  /\ ~ injects_faults (MockApiClient.updateCourse (Int 1)
                         (mkCourseUpdate None None None None None None None))
  /\ ~ injects_faults (MockApiClient.deleteCourse (Int 1)).
Proof.
  repeat split; intros Hinj;
    destruct (Hinj (boot (fun _ => 0%Q))) as [Hnet _];
    destruct Hnet as (msg & w' & Hrun & _); try reflexivity;
    vm_compute in Hrun; discriminate Hrun.
Qed.

(** ** Store operations, one invocation at a time *)

Lemma courses_after_latency ms w : courses (after_latency ms w) = courses w.
Proof. reflexivity. Qed.

Lemma fetchCourseById_run i w :
  MockApiClient.fetchCourseById i w
  = match List.find (fun c => has_id i c && truthy (isActive c)) (courses w) with
    | None => (Throw (MockApiClient.not_found i), after_latency 400 w)
    | Some course =>
      (Return (mkResponse course true (lit "Course fetched successfully")
                 (clock w + 400)), after_latency 400 w)
    end.
Proof.
  unfold MockApiClient.fetchCourseById, simulateNetworkDelay, bind, effect,
    this_courses, Date_now, throw, ret.
  cbn [courses record advance console timer World_runtime].
  destruct (find _ _); reflexivity.
Qed.

Lemma createCourse_run courseData w :
  MockApiClient.createCourse courseData w
  = if negb (nonempty (d_name courseData))
       || (Z.of_nat (length (trim (d_name courseData))) <? 3)
    then (Throw name_too_short, after_latency 1200 w)
    else
      let newCourse :=
        newCourse_of courseData (number_add (Math_max (map id (courses w))) 1) in
      (Return (mkResponse newCourse true (lit "Course created successfully")
                 (clock w + 1200)),
       set_courses (courses w ++ [newCourse]) (after_latency 1200 w)).
Proof.
  unfold MockApiClient.createCourse, simulateNetworkDelay, bind, effect,
    this_courses, Date_now, throw, ret.
  destruct (_ || _); reflexivity.
Qed.

Lemma updateCourse_run i updates w :
  MockApiClient.updateCourse i updates w
  = match findIndex (has_id i) (courses w) with
    | None => (Throw (MockApiClient.not_found i), after_latency 900 w)
    | Some (courseIndex, c) =>
      (Return (mkResponse (merge c updates) true (lit "Course updated successfully")
                 (clock w + 900)),
       set_courses (<[courseIndex := merge c updates]> (courses w))
         (after_latency 900 w))
    end.
Proof.
  unfold MockApiClient.updateCourse, simulateNetworkDelay, bind, effect,
    this_courses, Date_now, throw, ret.
  cbn [courses record advance console timer World_runtime].
  destruct (findIndex _ _) as [[? ?]|]; reflexivity.
Qed.

Lemma deleteCourse_run i w :
  MockApiClient.deleteCourse i w
  = match findIndex (has_id i) (courses w) with
    | None => (Throw (MockApiClient.not_found i), after_latency 600 w)
    | Some (courseIndex, c) =>
      (Return (mkResponse true true (lit "Course deleted successfully")
                 (clock w + 600)),
       set_courses (<[courseIndex := deactivate c]> (courses w))
         (after_latency 600 w))
    end.
Proof.
  unfold MockApiClient.deleteCourse, simulateNetworkDelay, bind, effect,
    this_courses, Date_now, throw, ret.
  cbn [courses record advance console timer World_runtime].
  destruct (findIndex _ _) as [[? ?]|]; reflexivity.
Qed.

(** ** Retrying an operation whose outcome the store decides *)

(** An operation that throws [e] whenever the store is [cs], and leaves the
    store alone when it does, fails all three attempts. *)
Lemma retried_stable_failure {T} (operation : M World T) e cs w :
  courses w = cs ->
  (forall u, courses u = cs ->
     exists u', operation u = (Throw e, u') /\ courses u' = cs) ->
  exists w', coursesApi.retried operation w = (Throw e, w') /\ courses w' = cs.
Proof.
  intros Hw Hop. unfold coursesApi.retried, withRetry.
  change (Z.to_nat (retryAttempts API_CONFIG)) with 3%nat.
  change (retryAttempts API_CONFIG) with 3. change (retryDelay API_CONFIG) with 1000.
  rewrite attempts_S. change (1 <=? 3) with true. cbv iota.
  edestruct Hop as (u1 & -> & H1); [rewrite courses_console; exact Hw|].
  cbv zeta. change (1 =? 3) with false. cbv iota.
  rewrite attempts_S. change (1 + 1 <=? 3) with true. cbv iota.
  edestruct Hop as (u2 & -> & H2);
    [rewrite courses_console, courses_timer, !courses_console; exact H1|].
  cbv zeta. change (1 + 1 =? 3) with false. cbv iota.
  rewrite attempts_S. change (1 + 1 + 1 <=? 3) with true. cbv iota.
  edestruct Hop as (u3 & -> & H3);
    [rewrite courses_console, courses_timer, !courses_console; exact H2|].
  cbv zeta. change (1 + 1 + 1 =? 3) with true. cbv iota.
  eexists. split; [reflexivity|]. rewrite courses_console. exact H3.
Qed.

(** An operation that succeeds on the first attempt is not retried. *)
Lemma retried_first_success {T} (operation : M World T) w v w1 :
  operation (console log
    [Text (lit "[v0] API attempt " ++ show_Z 1 ++ lit "/" ++ show_Z 3)] w)
  = (Return v, w1) ->
  coursesApi.retried operation w = (Return v, w1).
Proof.
  intros Hop. unfold coursesApi.retried.
  apply withRetry_first_success; [cbn; lia | exact Hop].
Qed.

(** ** The public operations, by the state of the store *)

Lemma getCourse_outcome i w :
  match List.find (fun c => has_id i c && truthy (isActive c)) (courses w) with
  | None =>
    exists w', coursesApi.getCourse i w = (Throw (MockApiClient.not_found i), w')
               /\ courses w' = courses w
  | Some course =>
    exists w', coursesApi.getCourse i w = (Return course, w')
               /\ courses w' = courses w
  end.
Proof.
  destruct (find _ _) as [course|] eqn:Hfind.
  - unfold coursesApi.getCourse, try_catch, bind.
    erewrite retried_first_success
      by (rewrite fetchCourseById_run, courses_console, Hfind; reflexivity).
    eexists. split; reflexivity.
  - destruct (retried_stable_failure (MockApiClient.fetchCourseById i)
                (MockApiClient.not_found i) (courses w) w eq_refl) as (w' & Hrun & Hstore).
    { intros u Hu. rewrite fetchCourseById_run, Hu, Hfind. eexists. split; [reflexivity|].
      rewrite courses_after_latency. exact Hu. }
    unfold coursesApi.getCourse, try_catch, bind. rewrite Hrun.
    eexists. split; [reflexivity|]. exact Hstore.
Qed.

Lemma createCourse_outcome courseData w :
  if negb (nonempty (d_name courseData))
     || (Z.of_nat (length (trim (d_name courseData))) <? 3)
  then
    exists w', coursesApi.createCourse courseData w = (Throw name_too_short, w')
               /\ courses w' = courses w
  else
    let newCourse :=
      newCourse_of courseData (number_add (Math_max (map id (courses w))) 1) in
    exists w', coursesApi.createCourse courseData w = (Return newCourse, w')
               /\ courses w' = courses w ++ [newCourse].
Proof.
  destruct (_ || _) eqn:Hname.
  - destruct (retried_stable_failure (MockApiClient.createCourse courseData)
                name_too_short (courses w) w eq_refl) as (w' & Hrun & Hstore).
    { intros u Hu. rewrite createCourse_run, Hname. eexists. split; [reflexivity|].
      rewrite courses_after_latency. exact Hu. }
    unfold coursesApi.createCourse, try_catch, bind. rewrite Hrun.
    eexists. split; [reflexivity|]. exact Hstore.
  - unfold coursesApi.createCourse, try_catch, bind.
    erewrite retried_first_success
      by (rewrite createCourse_run, Hname; reflexivity).
    eexists. split; reflexivity.
Qed.

Lemma updateCourse_outcome i updates w :
  match findIndex (has_id i) (courses w) with
  | None =>
    exists w', coursesApi.updateCourse i updates w
               = (Throw (MockApiClient.not_found i), w')
               /\ courses w' = courses w
  | Some (courseIndex, c) =>
    exists w', coursesApi.updateCourse i updates w = (Return (merge c updates), w')
               /\ courses w' = <[courseIndex := merge c updates]> (courses w)
  end.
Proof.
  destruct (findIndex _ _) as [[courseIndex c]|] eqn:Hfind.
  - unfold coursesApi.updateCourse, try_catch, bind.
    erewrite retried_first_success
      by (rewrite updateCourse_run, courses_console, Hfind; reflexivity).
    eexists. split; reflexivity.
  - destruct (retried_stable_failure (MockApiClient.updateCourse i updates)
                (MockApiClient.not_found i) (courses w) w eq_refl) as (w' & Hrun & Hstore).
    { intros u Hu. rewrite updateCourse_run, Hu, Hfind. eexists. split; [reflexivity|].
      rewrite courses_after_latency. exact Hu. }
    unfold coursesApi.updateCourse, try_catch, bind. rewrite Hrun.
    eexists. split; [reflexivity|]. exact Hstore.
Qed.

Lemma deleteCourse_outcome i w :
  match findIndex (has_id i) (courses w) with
  | None =>
    exists w', coursesApi.deleteCourse i w = (Throw (MockApiClient.not_found i), w')
               /\ courses w' = courses w
  | Some (courseIndex, c) =>
    exists w', coursesApi.deleteCourse i w = (Return true, w')
               /\ courses w' = <[courseIndex := deactivate c]> (courses w)
  end.
Proof.
  destruct (findIndex _ _) as [[courseIndex c]|] eqn:Hfind.
  - unfold coursesApi.deleteCourse, try_catch, bind.
    erewrite retried_first_success
      by (rewrite deleteCourse_run, courses_console, Hfind; reflexivity).
    eexists. split; reflexivity.
  - destruct (retried_stable_failure (MockApiClient.deleteCourse i)
                (MockApiClient.not_found i) (courses w) w eq_refl) as (w' & Hrun & Hstore).
    { intros u Hu. rewrite deleteCourse_run, Hu, Hfind. eexists. split; [reflexivity|].
      rewrite courses_after_latency. exact Hu. }
    unfold coursesApi.deleteCourse, try_catch, bind. rewrite Hrun.
    eexists. split; [reflexivity|]. exact Hstore.
Qed.

(** Every attempt of a public list call ends in a list of active courses,
    [service_unavailable] or [invalid_request]. *)
Lemma retried_fetchCourses_throws w e w' :
  coursesApi.retried MockApiClient.fetchCourses w = (Throw e, w') ->
  e = service_unavailable \/ e = invalid_request.
Proof.
  assert (Hone : forall u e1 u1, MockApiClient.fetchCourses u = (Throw e1, u1) ->
                   e1 = service_unavailable \/ e1 = invalid_request).
  { intros u e1 u1. destruct (fetchCourses_cases u) as (u' & -> & _). cbv zeta.
    repeat destruct (Qlt_le_dec _ _); intros [= <- _]; auto. }
  unfold coursesApi.retried, withRetry.
  apply (attempts_throws (fun e => e = service_unavailable \/ e = invalid_request));
    [exact Hone | cbn; lia | left; cbn; lia].
Qed.

(** ** Errors at the public boundary *)

(** C5, as the code has it.  [getCourses] translates: a [NetworkError]
    becomes a plain error ["Network error: <message> (Status: <status>)"],
    a [ValidationError] a plain error ["Validation error: <message>"],
    anything else a plain generic error; its callers only ever see one of
    two plain errors.  [getCourse], [updateCourse] and [deleteCourse]
    rethrow a [NetworkError] as it is and replace anything else by a plain
    ["Failed to ..."] error, [createCourse] does the same with
    [ValidationError]; what their callers see when they fail is the
    original not-found [NetworkError] (status 404), respectively the
    original [ValidationError]. *)
Theorem error_translation_at_boundary :
  at_boundary (coursesApi.retried MockApiClient.fetchCourses) data
    (fun e => match e with
              | NetworkError msg status =>
                Error (lit "Network error: " ++ msg ++ lit " (Status: "
                       ++ show_Z status ++ lit ")")
              | ValidationError msg => Error (lit "Validation error: " ++ msg)
              | _ => Error (lit "An unexpected error occurred while fetching courses")
              end)
    coursesApi.getCourses
  /\ only_plain_errors coursesApi.getCourses
  /\ (forall w e w', coursesApi.getCourses w = (Throw e, w') ->
        e = Error (lit "Network error: Service temporarily unavailable (Status: 503)")
        \/ e = Error (lit "Validation error: Invalid request parameters"))
  /\ (forall i,
        at_boundary (coursesApi.retried (MockApiClient.fetchCourseById i)) data
          (fun e => match e with
                    | NetworkError _ _ => e
                    | _ => Error (lit "Failed to fetch course")
                    end)
          (coursesApi.getCourse i))
  /\ (forall courseData,
        at_boundary (coursesApi.retried (MockApiClient.createCourse courseData)) data
          (fun e => match e with
                    | ValidationError _ => e
                    | _ => Error (lit "Failed to create course")
                    end)
          (coursesApi.createCourse courseData))
  /\ (forall i updates,
        at_boundary (coursesApi.retried (MockApiClient.updateCourse i updates)) data
          (fun e => match e with
                    | NetworkError _ _ => e
                    | _ => Error (lit "Failed to update course")
                    end)
          (coursesApi.updateCourse i updates))
  /\ (forall i,
        at_boundary (coursesApi.retried (MockApiClient.deleteCourse i)) data
          (fun e => match e with
                    | NetworkError _ _ => e
                    | _ => Error (lit "Failed to delete course")
                    end)
          (coursesApi.deleteCourse i))
  /\ (forall i w e w', coursesApi.getCourse i w = (Throw e, w') ->
        e = NetworkError (lit "Course with ID " ++ show_number i ++ lit " not found") 404)
  /\ (forall i updates w e w', coursesApi.updateCourse i updates w = (Throw e, w') ->
        e = NetworkError (lit "Course with ID " ++ show_number i ++ lit " not found") 404)
  /\ (forall i w e w', coursesApi.deleteCourse i w = (Throw e, w') ->
        e = NetworkError (lit "Course with ID " ++ show_number i ++ lit " not found") 404)
  /\ (forall courseData w e w', coursesApi.createCourse courseData w = (Throw e, w') ->
        e = ValidationError (lit "Course name must be at least 3 characters long")).
Proof.
  assert (Hlist : forall w e w', coursesApi.getCourses w = (Throw e, w') ->
    e = Error (lit "Network error: Service temporarily unavailable (Status: 503)")
    \/ e = Error (lit "Validation error: Invalid request parameters")).
  { intros w e w'. unfold coursesApi.getCourses, try_catch, bind.
    destruct (coursesApi.retried _ w) as [[r|e0] w1] eqn:Hrun; [discriminate|].
    apply retried_fetchCourses_throws in Hrun as [-> | ->]; intros [= <- _];
      [left | right]; reflexivity. }
  split; [|split; [|split; [exact Hlist|]]].
  - intros w. unfold coursesApi.getCourses, try_catch, bind.
    destruct (coursesApi.retried _ w) as [[r|[]] w1]; reflexivity.
  - intros w e w' Hrun. destruct (Hlist w e w' Hrun) as [-> | ->]; eauto.
  - split; [|split; [|split; [|split]]].
    + intros i w. unfold coursesApi.getCourse, try_catch, bind.
      destruct (coursesApi.retried _ w) as [[r|[]] w1]; reflexivity.
    + intros courseData w. unfold coursesApi.createCourse, try_catch, bind.
      destruct (coursesApi.retried _ w) as [[r|[]] w1]; reflexivity.
    + intros i updates w. unfold coursesApi.updateCourse, try_catch, bind.
      destruct (coursesApi.retried _ w) as [[r|[]] w1]; reflexivity.
    + intros i w. unfold coursesApi.deleteCourse, try_catch, bind.
      destruct (coursesApi.retried _ w) as [[r|[]] w1]; reflexivity.
    + split; [|split; [|split]].
      * intros i w e w' Hrun. pose proof (getCourse_outcome i w) as Hout.
        destruct (find _ _); destruct Hout as (u & Hu & _);
          unfold MockApiClient.not_found in *; congruence.
      * intros i updates w e w' Hrun. pose proof (updateCourse_outcome i updates w) as Hout.
        destruct (findIndex _ _) as [[? ?]|]; destruct Hout as (u & Hu & _);
          unfold MockApiClient.not_found in *; congruence.
      * intros i w e w' Hrun. pose proof (deleteCourse_outcome i w) as Hout.
        destruct (findIndex _ _) as [[? ?]|]; destruct Hout as (u & Hu & _);
          unfold MockApiClient.not_found in *; congruence.
      * intros courseData w e w' Hrun. pose proof (createCourse_outcome courseData w) as Hout.
        destruct (_ || _); destruct Hout as (u & Hu & _);
          unfold name_too_short in *; congruence.
Qed.

Lemma error_translation_at_boundary_witness :
  let w := boot (fun _ => 0%Q) in
  let e := NetworkError (lit "Course with ID 99 not found") 404 in
  coursesApi.getCourse (Int 99) w = (Throw e, snd (coursesApi.getCourse (Int 99) w))
  /\ e = NetworkError (lit "Course with ID " ++ show_number (Int 99)
                         ++ lit " not found") 404.
Proof.
  intros w e.
  assert (Hrun : coursesApi.getCourse (Int 99) w
                 = (Throw e, snd (coursesApi.getCourse (Int 99) w)))
    by (vm_compute; reflexivity).
  split; [exact Hrun|].
  destruct error_translation_at_boundary as (_ & _ & _ & _ & _ & _ & _ & Hget & _).
  exact (Hget (Int 99) w e _ Hrun).
Defined.

(** A not-found [NetworkError] crosses the public boundary as it is:
    looking up the unknown id 99 in the seeded store throws the store's own
    [NetworkError] with status 404, not a plain translated error. *)
Lemma getCourse_leaks_NetworkError :
  fst (coursesApi.getCourse (Int 99) (boot (fun _ => 0%Q)))
  = Throw (NetworkError (lit "Course with ID 99 not found") 404)
  /\ ~ only_plain_errors (coursesApi.getCourse (Int 99)).
Proof.
  split; [vm_compute; reflexivity|].
  intros Hplain.
  destruct (coursesApi.getCourse (Int 99) (boot (fun _ => 0%Q))) as [r w'] eqn:Hrun.
  assert (Hr : r = Throw (NetworkError (lit "Course with ID 99 not found") 404)).
  { change r with (fst (r, w')). rewrite <- Hrun. vm_compute. reflexivity. }
  subst r. destruct (Hplain _ _ _ Hrun) as [msg [=]].
Qed.

(** ** Reading the list *)

Section RetryReturns.
Context {W : Type} `{Runtime W} {T : Type}.

(** A value the loop returns is one the operation returned, in a world
    reached from the initial one by operation failures, log lines and
    timers. *)
Lemma attempts_returns (I : W -> Prop) (Q : T -> Prop)
    (operation : M W T) maxAttempts delay :
  (forall l parts u, I u -> I (console l parts u)) ->
  (forall ms u, I u -> I (timer ms u)) ->
  (forall u e u1, I u -> operation u = (Throw e, u1) -> I u1) ->
  (forall u v u1, I u -> operation u = (Return v, u1) -> Q v) ->
  forall fuel attempt lastError w v w',
    I w ->
    attempts fuel operation maxAttempts delay attempt lastError w = (Return v, w') ->
    Q v.
Proof.
  intros Hconsole Htimer Hthrow Hreturn.
  induction fuel as [|fuel IH]; intros attempt lastError w v w' Hw; [discriminate|].
  rewrite attempts_S. destruct (attempt <=? maxAttempts); [|discriminate].
  destruct (operation _) as [[v1|e1] w1] eqn:Hrun.
  - intros [= <- _]. eapply Hreturn, Hrun. apply Hconsole, Hw.
  - cbv zeta. destruct (attempt =? maxAttempts); [discriminate|].
    apply IH. apply Htimer, Hconsole, Hconsole. eapply Hthrow, Hrun.
    apply Hconsole, Hw.
Qed.

End RetryReturns.

Lemma filter_sublist {A} (p : A -> bool) (l : list A) : sublist (List.filter p l) l.
Proof.
  induction l as [|x l IH]; cbn [List.filter]; [constructor|].
  destruct (p x); constructor; exact IH.
Qed.

(** What a successful public list call returns. *)
Lemma getCourses_returns (w : World) (cs : list Course) (w' : World) :
  coursesApi.getCourses w = (Return cs, w') ->
  cs = List.filter (fun course => truthy (isActive course)) (courses w).
Proof.
  unfold coursesApi.getCourses, try_catch, bind.
  destruct (coursesApi.retried _ w) as [[r|e] w1] eqn:Hretry.
  2: { destruct e; discriminate. }
  intros [= <- _]. revert Hretry. unfold coursesApi.retried, withRetry.
  apply (attempts_returns (fun u => courses u = courses w)
           (fun r => data r
              = List.filter (fun course => truthy (isActive course)) (courses w)));
    [| | | |reflexivity].
  - intros l parts u Hu. exact Hu.
  - intros ms u Hu. exact Hu.
  - intros u e u1 Hu Hop. apply fetchCourses_frame in Hop as [_ ->]. exact Hu.
  - intros u v u1 Hu. destruct (fetchCourses_cases u) as (u' & -> & _). cbv zeta.
    repeat destruct (Qlt_le_dec _ _); intros [= <- _]. cbn [data]. rewrite Hu.
    reflexivity.
Qed.

(** C7. A successful [getCourses] returns exactly the records of the store
    whose [isActive] is true, in the order they were inserted; no record
    with [isActive = false] is among them: a record of the store whose
    flag is [false] or missing is left out. *)
Theorem getCourses_only_active (w : World) (cs : list Course) (w' : World) :
  coursesApi.getCourses w = (Return cs, w') ->
  cs = List.filter (fun course => truthy (isActive course)) (courses w)
  /\ Forall (fun course => isActive course = Some true) cs
  /\ (forall course, In course cs -> isActive course <> Some false)
  /\ (forall course, In course (courses w) -> isActive course = Some true ->
        In course cs)
  /\ (forall course, In course (courses w) -> isActive course <> Some true ->
        ~ In course cs)
  /\ sublist cs (courses w)
  /\ courses w' = courses w.
Proof.
  intros Hrun.
  destruct (getCourses_elapsed w _ _ Hrun) as (_ & Hstore & _).
  pose proof (getCourses_returns w cs w' Hrun) as Hcs.
  split; [exact Hcs|]. subst cs. split; [|split; [|split; [|split; [|split]]]].
  - apply List.Forall_forall. intros course [_ Hactive]%filter_In.
    destruct (isActive course) as [[|]|]; [reflexivity | discriminate..].
  - intros course [_ Hactive]%filter_In Hfalse. rewrite Hfalse in Hactive. discriminate.
  - intros course Hin Hactive. apply filter_In. split; [exact Hin|].
    rewrite Hactive. reflexivity.
  - intros course _ Hinactive [_ Hactive]%filter_In. apply Hinactive.
    destruct (isActive course) as [[|]|]; [reflexivity | discriminate..].
  - apply filter_sublist.
  - exact Hstore.
Qed.

Lemma getCourses_only_active_witness :
  let w := snd (coursesApi.deleteCourse (Int 3) (boot (fun _ => (1 # 2)%Q))) in
  let dropped :=
    mkCourse (Int 3) (lit "JavaScript Pro")
      (Some (lit "Advanced JavaScript concepts and ES6+ features"))
      (Some (lit "8 weeks")) (Some (lit "Alex Rodriguez")) (Some (Int 189))
      (Some false) in
  exists listed w',
    coursesApi.getCourses w = (Return listed, w')
    /\ map id (courses w) = [Int 1; Int 2; Int 3; Int 4; Int 5]
    /\ map id listed = [Int 1; Int 2; Int 4; Int 5]
    /\ In dropped (courses w)
    /\ ~ In dropped listed
    /\ Forall (fun course => isActive course = Some true) listed.
Proof.
  intros w dropped.
  destruct (coursesApi.getCourses w) as [r w'] eqn:Hrun.
  assert (Hr : r = Return (List.filter (fun course => truthy (isActive course))
                            (courses w))).
  { change r with (fst (r, w')). rewrite <- Hrun. vm_compute. reflexivity. }
  subst r. eexists _, w'. split; [reflexivity|].
  destruct (getCourses_only_active w _ w' Hrun) as (_ & Hall & _ & _ & Hout & _).
  assert (Hin : In dropped (courses w)) by (vm_compute; auto).
  split; [vm_compute; reflexivity|]. split; [vm_compute; reflexivity|].
  split; [exact Hin|]. split; [|exact Hall].
  apply Hout; [exact Hin | discriminate].
Defined.

(** ** Creating courses *)

Lemma number_max_Int_l m b :
  exists m', number_max (Int m) b = Int m' /\ m <= m'
             /\ (m' = m \/ b = Int m').
Proof.
  destruct b as [|y]; cbn [number_max].
  - exists m. split; [reflexivity|]. split; [lia | left; reflexivity].
  - exists (Z.max m y). split; [reflexivity|]. split; [lia|].
    destruct (Z.max_spec m y) as [[_ ->] | [_ ->]]; auto.
Qed.

(** On a non-empty list of integers [Math.max] is the greatest of them. *)
Lemma Math_max_Int (xs : list number) :
  xs <> [] ->
  Forall (fun x => x <> NegInf) xs ->
  exists m, Math_max xs = Int m
            /\ In (Int m) xs
            /\ forall z, In (Int z) xs -> z <= m.
Proof.
  induction xs as [|x xs IH]; [congruence|]. intros _ Hall.
  apply Forall_cons in Hall as [Hx Hall].
  destruct x as [|z0]; [congruence|].
  destruct xs as [|x' xs'].
  - exists z0. cbn. split; [reflexivity|]. split; [left; reflexivity|].
    intros z [[= ->]|[]]. lia.
  - destruct (IH ltac:(discriminate) Hall) as (m & Hmax & Hin & Hub).
    cbn [Math_max fold_right] in Hmax |- *. rewrite Hmax. cbn [number_max].
    exists (Z.max z0 m). split; [reflexivity|]. split.
    + destruct (Z.max_spec z0 m) as [[_ ->] | [_ ->]];
        [right; exact Hin | left; reflexivity].
    + intros z [[= ->]|Hz]; [lia|]. specialize (Hub z Hz). lia.
Qed.

Lemma Math_max_app xs ys :
  Math_max (xs ++ ys) = number_max (Math_max xs) (Math_max ys).
Proof.
  induction xs as [|x xs IH]; cbn [Math_max fold_right app].
  - reflexivity.
  - fold (Math_max (xs ++ ys)) (Math_max xs) (Math_max ys). rewrite IH.
    destruct x, (Math_max xs), (Math_max ys); cbn [number_max]; try reflexivity.
    f_equal. lia.
Qed.

Lemma trimmed_nonempty (s : jsstring) :
  (3 <= length (trim s))%nat -> nonempty s = true.
Proof. destruct s; [cbn; lia | reflexivity]. Qed.

Lemma name_accepted courseData :
  (3 <= length (trim (d_name courseData)))%nat ->
  negb (nonempty (d_name courseData))
  || (Z.of_nat (length (trim (d_name courseData))) <? 3) = false.
Proof.
  intros Hlen. rewrite (trimmed_nonempty _ Hlen).
  destruct (Z.ltb_spec (Z.of_nat (length (trim (d_name courseData)))) 3); [lia|].
  reflexivity.
Qed.

(** One accepted creation, on the store operation and through the public
    API. *)
Lemma createCourse_accepted courseData w :
  (3 <= length (trim (d_name courseData)))%nat ->
  let newCourse :=
    newCourse_of courseData (number_add (Math_max (map id (courses w))) 1) in
  (exists response u,
     MockApiClient.createCourse courseData w = (Return response, u)
     /\ data response = newCourse /\ courses u = courses w ++ [newCourse])
  /\ exists w', coursesApi.createCourse courseData w = (Return newCourse, w')
                /\ courses w' = courses w ++ [newCourse].
Proof.
  intros Hlen newCourse. split.
  - rewrite createCourse_run, (name_accepted _ Hlen). eexists _, _.
    split; [reflexivity|]. split; reflexivity.
  - pose proof (createCourse_outcome courseData w) as Hout.
    rewrite (name_accepted _ Hlen) in Hout. exact Hout.
Qed.

Lemma room_for_finite k n : room_for k n -> n <> NegInf.
Proof. destruct n; [contradiction | discriminate]. Qed.

(** C6, as the code has it.  On a non-empty store whose ids are safe
    integers with room for two more below 2^53 (so that the sums are
    exact), a successful create gives the new record the id [top + 1],
    where [top] is the greatest id in the store, sets
    [enrollmentCount = 0] and [isActive = true], appends the record and
    returns it; a second successful create gets [top + 2], so the two ids
    are distinct and increasing, and both are at most 2^53. *)
Theorem createCourse_assigns_next_id (w : World) (courseData courseData2 : CourseData) :
  courses w <> [] ->
  Forall (fun c => room_for 2 (id c)) (courses w) ->
  (3 <= length (trim (d_name courseData)))%nat ->
  (3 <= length (trim (d_name courseData2)))%nat ->
  exists (top : Z) (c c2 : Course) (w1 w2 : World),
    In (Int top) (map id (courses w))
    /\ (forall z, In (Int z) (map id (courses w)) -> z <= top)
    /\ (exists response u,
          MockApiClient.createCourse courseData w = (Return response, u)
          /\ data response = c /\ courses u = courses w ++ [c])
    /\ coursesApi.createCourse courseData w = (Return c, w1)
    /\ id c = Int (top + 1)
    /\ enrollmentCount c = Some (Int 0)
    /\ isActive c = Some true
    /\ courses w1 = courses w ++ [c]
    /\ coursesApi.createCourse courseData2 w1 = (Return c2, w2)
    /\ id c2 = Int (top + 2)
    /\ id c <> id c2
    /\ top + 2 <= MAX_SAFE_INTEGER + 1
    /\ courses w2 = courses w ++ [c; c2].
Proof.
  intros Hne Hroom Hlen Hlen2.
  destruct (Math_max_Int (map id (courses w))) as (top & Hmax & Hin & Hub).
  { destruct (courses w); [congruence | discriminate]. }
  { apply Forall_map. eapply Forall_impl; [exact Hroom|].
    intros c Hc. exact (room_for_finite 2 _ Hc). }
  assert (Htop : top + 2 <= MAX_SAFE_INTEGER + 1).
  { apply in_map_iff in Hin as (c0 & Hid0 & Hin0).
    pose proof (proj1 (List.Forall_forall _ _) Hroom c0 Hin0) as Hc0.
    cbv beta in Hc0. rewrite Hid0 in Hc0. exact (proj2 Hc0). }
  destruct (createCourse_accepted courseData w Hlen) as [Hclient (w1 & Hrun1 & Hstore1)].
  destruct (createCourse_accepted courseData2 w1 Hlen2) as [_ (w2 & Hrun2 & Hstore2)].
  rewrite Hmax in *. cbn [number_add] in *.
  rewrite Hstore1, map_app, Math_max_app, Hmax in Hrun2, Hstore2.
  cbn [map id newCourse_of Math_max fold_right number_max number_add] in Hrun2, Hstore2.
  replace (Z.max top (top + 1) + 1) with (top + 2) in Hrun2, Hstore2 by lia.
  eexists top, _, _, w1, w2.
  split; [exact Hin|]. split; [exact Hub|]. split; [exact Hclient|].
  split; [exact Hrun1|]. split; [reflexivity|]. split; [reflexivity|].
  split; [reflexivity|]. split; [exact Hstore1|]. split; [exact Hrun2|].
  split; [reflexivity|]. split; [cbn [id newCourse_of]; intros [=]; lia|].
  split; [exact Htop|]. rewrite Hstore2, <- app_assoc. reflexivity.
Qed.

Lemma createCourse_assigns_next_id_witness :
  exists (c c2 : Course) (w1 w2 : World),
    coursesApi.createCourse some_course (boot (fun _ => 0%Q)) = (Return c, w1)
    /\ id c = Int 6
    /\ coursesApi.createCourse some_course w1 = (Return c2, w2)
    /\ id c2 = Int 7.
Proof.
  destruct (createCourse_assigns_next_id (boot (fun _ => 0%Q)) some_course some_course)
    as (top & c & c2 & w1 & w2 & Hin & Hub & _ & Hrun1 & Hid1 & _ & _ & _ & Hrun2 & Hid2 & _).
  - discriminate.
  - repeat constructor; vm_compute; discriminate.
  - vm_compute. lia.
  - vm_compute. lia.
  - assert (Hmax : top = 5).
    { apply Z.le_antisymm.
      - cbn in Hin. destruct Hin as [[= <-]|[[= <-]|[[= <-]|[[= <-]|[[= <-]|[]]]]]]; lia.
      - apply Hub. cbn. auto 10. }
    subst top. exists c, c2, w1, w2. auto.
Defined.

(** An id can be [-Infinity]: it is a number, and [updateCourse] merges an
    [id] like any other field.  Once the five seeded courses have been
    given that id one after the other, [Math.max] of the ids is
    [-Infinity] and so is [-Infinity + 1]: two successive creations both
    succeed and both get the id [-Infinity], neither distinct nor
    increasing. *)
Lemma createCourse_repeats_infinite_id :
  let lose (i : Z) (w : World) := snd (coursesApi.updateCourse (Int i) lose_id w) in
  let w := lose 5 (lose 4 (lose 3 (lose 2 (lose 1 (boot (fun _ => 0%Q)))))) in
  map id (courses w) = [NegInf; NegInf; NegInf; NegInf; NegInf]
  /\ exists c w1 c2 w2,
       coursesApi.createCourse some_course w = (Return c, w1)
       /\ coursesApi.createCourse some_course w1 = (Return c2, w2)
       /\ id c = NegInf
       /\ id c2 = id c.
Proof.
  intros lose w.
  assert (Hids : map id (courses w) = [NegInf; NegInf; NegInf; NegInf; NegInf])
    by (vm_compute; reflexivity).
  split; [exact Hids|].
  destruct (createCourse_accepted some_course w) as [_ (w1 & Hrun1 & Hstore1)];
    [vm_compute; lia|].
  destruct (createCourse_accepted some_course w1) as [_ (w2 & Hrun2 & Hstore2)];
    [vm_compute; lia|].
  eexists _, w1, _, w2. split; [exact Hrun1|]. split; [exact Hrun2|].
  rewrite Hstore1, map_app, Hids. split; reflexivity.
Qed.

(** C10. Whatever the caller supplies for [enrollmentCount] and
    [isActive], a create with an accepted name stores and returns a record
    with [enrollmentCount = 0] and [isActive = true]; the other fields are
    the caller's. *)
Theorem createCourse_overwrites_count_and_flag (w : World) (courseData : CourseData) :
  (3 <= length (trim (d_name courseData)))%nat ->
  exists (c : Course) (w' : World),
    coursesApi.createCourse courseData w = (Return c, w')
    /\ (exists response u,
          MockApiClient.createCourse courseData w = (Return response, u)
          /\ data response = c /\ last (courses u) = Some c)
    /\ last (courses w') = Some c
    /\ enrollmentCount c = Some (Int 0)
    /\ isActive c = Some true
    /\ name c = d_name courseData
    /\ description c = d_description courseData
    /\ duration c = d_duration courseData
    /\ instructor c = d_instructor courseData.
Proof.
  intros Hlen.
  destruct (createCourse_accepted courseData w Hlen)
    as [(response & u & Hclient & Hdata & Hu) (w' & Hrun & Hstore)].
  eexists _, w'. split; [exact Hrun|]. split.
  { exists response, u. split; [exact Hclient|]. split; [exact Hdata|].
    rewrite Hu. apply last_snoc. }
  split; [rewrite Hstore; apply last_snoc|]. repeat split.
Qed.

Lemma createCourse_overwrites_count_and_flag_witness :
  let courseData :=
    mkCourseData (lit "Data Engineering") None None None (Some (Int 7)) (Some false) in
  exists (c : Course) (w' : World),
    coursesApi.createCourse courseData (boot (fun _ => 0%Q)) = (Return c, w')
    /\ d_enrollmentCount courseData = Some (Int 7)
    /\ d_isActive courseData = Some false
    /\ enrollmentCount c = Some (Int 0)
    /\ isActive c = Some true.
Proof.
  intros courseData.
  destruct (createCourse_overwrites_count_and_flag (boot (fun _ => 0%Q)) courseData)
    as (c & w' & Hrun & _ & _ & Hcount & Hactive & _); [vm_compute; lia|].
  exists c, w'. auto.
Defined.

(** ** Locating a record by id *)

Lemma number_eqb_eq a b : number_eqb a b = true <-> a = b.
Proof.
  destruct a as [|x], b as [|y]; cbn [number_eqb]; split; try congruence.
  - intros ->%Z.eqb_eq. reflexivity.
  - intros [= ->]. apply Z.eqb_refl.
Qed.

Lemma has_id_eq i c : has_id i c = true <-> id c = i.
Proof. apply number_eqb_eq. Qed.

(** [findIndex] finds nothing exactly when no record carries the id. *)
Lemma findIndex_absent i (cs : list Course) :
  (forall c, In c cs -> id c <> i) -> findIndex (has_id i) cs = None.
Proof.
  intros Habsent. apply list_find_None, List.Forall_forall.
  intros c Hin Hid%has_id_eq. exact (Habsent c Hin Hid).
Qed.

(** Otherwise it finds the first such record. *)
Lemma findIndex_present i (cs : list Course) :
  (exists c, In c cs /\ id c = i) ->
  exists k c, findIndex (has_id i) cs = Some (k, c)
              /\ cs !! k = Some c /\ id c = i
              /\ forall j cj, cs !! j = Some cj -> (j < k)%nat -> id cj <> i.
Proof.
  intros (c0 & Hin & Hid).
  destruct (list_find_elem_of (fun x => has_id i x = true) cs c0) as [[k c] Hfind].
  { apply list_elem_of_In, Hin. }
  { apply has_id_eq, Hid. }
  exists k, c. split; [exact Hfind|].
  apply list_find_Some in Hfind as (Hk & Hc%has_id_eq & Hfirst).
  split; [exact Hk|]. split; [exact Hc|].
  intros j cj Hj Hlt Hidj. apply (Hfirst j cj Hj Hlt), has_id_eq, Hidj.
Qed.

Lemma deactivated_hidden i (cs : list Course) k c :
  cs !! k = Some c -> id c = i -> sole_id i cs ->
  forall c', In c' (<[k := deactivate c]> cs) -> id c' = i ->
             truthy (isActive c') = false.
Proof.
  intros Hk Hid Hsole c' Hin Hid'.
  apply list_elem_of_In, list_elem_of_lookup in Hin as [j Hj].
  destruct (decide (j = k)) as [->|Hne].
  - rewrite list_lookup_insert_eq in Hj by (eapply lookup_lt_Some, Hk).
    injection Hj as <-. reflexivity.
  - rewrite list_lookup_insert_ne in Hj by congruence.
    destruct Hne. exact (Hsole j k c' c Hj Hk Hid' Hid).
Qed.

(** ** Soft delete *)

(** C8, as the code has it.  [deleteCourse] fails with the not-found error
    when no record has the id.  Otherwise it returns [true] and sets
    [isActive] to [false] on the first record with that id (no record
    before it has the id), which stays in the store with its other
    fields, as do all other records.  If no other
    record carries the id, a later successful [getCourses] has no record
    with that id and [getCourse] on it fails with the not-found error. *)
Theorem deleteCourse_soft_deletes (w : World) (i : number) :
  ((forall c, In c (courses w) -> id c <> i) ->
     (exists u, MockApiClient.deleteCourse i w = (Throw (MockApiClient.not_found i), u)
                /\ courses u = courses w)
     /\ exists w', coursesApi.deleteCourse i w = (Throw (MockApiClient.not_found i), w')
                   /\ courses w' = courses w)
  /\ ((exists c, In c (courses w) /\ id c = i) ->
      exists (k : nat) (c c' : Course) (w' : World),
        courses w !! k = Some c /\ id c = i
        /\ (forall j cj, courses w !! j = Some cj -> (j < k)%nat -> id cj <> i)
        /\ (exists response u,
              MockApiClient.deleteCourse i w = (Return response, u)
              /\ data response = true /\ courses u = <[k := c']> (courses w))
        /\ coursesApi.deleteCourse i w = (Return true, w')
        /\ length (courses w') = length (courses w)
        /\ courses w' !! k = Some c'
        /\ isActive c' = Some false
        /\ id c' = id c /\ name c' = name c /\ description c' = description c
        /\ duration c' = duration c /\ instructor c' = instructor c
        /\ enrollmentCount c' = enrollmentCount c
        /\ (forall j, j <> k -> courses w' !! j = courses w !! j)
        /\ (sole_id i (courses w) ->
            (forall cs w'', coursesApi.getCourses w' = (Return cs, w'') ->
               forall listed, In listed cs -> id listed <> i)
            /\ exists w'', coursesApi.getCourse i w'
                           = (Throw (MockApiClient.not_found i), w''))).
Proof.
  split.
  - intros Habsent%findIndex_absent. split.
    + rewrite deleteCourse_run, Habsent. eexists. split; reflexivity.
    + pose proof (deleteCourse_outcome i w) as Hout. rewrite Habsent in Hout. exact Hout.
  - intros (k & c & Hfind & Hk & Hid & Hfirst)%findIndex_present.
    pose proof (deleteCourse_outcome i w) as Hout. rewrite Hfind in Hout.
    destruct Hout as (w' & Hrun & Hstore).
    exists k, c, (deactivate c), w'.
    split; [exact Hk|]. split; [exact Hid|]. split; [exact Hfirst|]. split.
    { rewrite deleteCourse_run, Hfind. eexists _, _. split; [reflexivity|].
      split; reflexivity. }
    split; [exact Hrun|]. rewrite Hstore.
    split; [apply length_insert|].
    split; [apply list_lookup_insert_eq; eapply lookup_lt_Some, Hk|].
    do 7 (split; [reflexivity|]).
    split; [intros j Hj; apply list_lookup_insert_ne; congruence|].
    intros Hsole.
    pose proof (deactivated_hidden i (courses w) k c Hk Hid Hsole) as Hhidden.
    split.
    + intros cs w'' Hlist listed Hin Hlisted.
      rewrite (getCourses_returns w' cs w'' Hlist) in Hin.
      apply filter_In in Hin as [Hin Hactive]. rewrite Hstore in Hin.
      rewrite (Hhidden listed Hin Hlisted) in Hactive. discriminate.
    + pose proof (getCourse_outcome i w') as Hget.
      destruct (find _ _) as [found|] eqn:Hfound.
      * apply find_some in Hfound as [Hin [Hfid%has_id_eq Hactive]%andb_prop].
        rewrite Hstore in Hin. rewrite (Hhidden found Hin Hfid) in Hactive.
        discriminate.
      * destruct Hget as (w'' & Hget & _). exists w''. exact Hget.
Qed.

Lemma deleteCourse_soft_deletes_witness :
  let w := boot (fun _ => (1 # 2)%Q) in
  exists (w' : World),
    coursesApi.deleteCourse (Int 3) w = (Return true, w')
    /\ length (courses w') = 5%nat
    /\ (forall cs w'', coursesApi.getCourses w' = (Return cs, w'') ->
          forall listed, In listed cs -> id listed <> Int 3)
    /\ exists w'', coursesApi.getCourse (Int 3) w'
                   = (Throw (MockApiClient.not_found (Int 3)), w'').
Proof.
  intros w.
  destruct (deleteCourse_soft_deletes w (Int 3)) as [_ Hpresent].
  destruct Hpresent
    as (k & c & c' & w' & _ & _ & _ & _ & Hrun & Hlen & _ & _ & _ & _ & _ & _ & _ & _ & _
        & Hreads).
  { exists (mkCourse (Int 3) (lit "JavaScript Pro")
      (Some (lit "Advanced JavaScript concepts and ES6+ features"))
      (Some (lit "8 weeks")) (Some (lit "Alex Rodriguez")) (Some (Int 189)) (Some true)).
    split; [cbn; auto 10 | reflexivity]. }
  exists w'. split; [exact Hrun|]. split; [exact Hlen|].
  apply Hreads. intros j1 j2 cj ck Hj1 Hj2 Hid1 Hid2.
  destruct j1 as [|[|[|[|[|j1]]]]]; try discriminate Hj1;
    injection Hj1 as <-; try discriminate Hid1;
    destruct j2 as [|[|[|[|[|j2]]]]]; try discriminate Hj2;
    injection Hj2 as <-; try discriminate Hid2; reflexivity.
Defined.

(** Ids can coincide: [updateCourse] merges an [id] like any other field.
    After giving course 1 the id 2, deleting id 2 deactivates that record
    only; the list still shows a course with id 2 and [getCourse(2)]
    still succeeds. *)
Lemma deleteCourse_with_shared_id :
  let w0 := boot (fun _ => (1 # 2)%Q) in
  let w1 := snd (coursesApi.updateCourse (Int 1)
                   (mkCourseUpdate (Some (Int 2)) None None None None None None) w0) in
  let w2 := snd (coursesApi.deleteCourse (Int 2) w1) in
  fst (coursesApi.deleteCourse (Int 2) w1) = Return true
  /\ (exists cs listed,
        fst (coursesApi.getCourses w2) = Return cs
        /\ In listed cs /\ id listed = Int 2)
  /\ (exists found,
        fst (coursesApi.getCourse (Int 2) w2) = Return found
        /\ id found = Int 2 /\ isActive found = Some true).
Proof.
  intros w0 w1 w2. split; [vm_compute; reflexivity|]. split.
  - eexists _, (mkCourse (Int 2) (lit "CSS Mastery")
      (Some (lit "Master CSS styling and responsive design"))
      (Some (lit "6 weeks")) (Some (lit "Mike Chen")) (Some (Int 203)) (Some true)).
    split; [vm_compute; reflexivity|]. split; [cbn; auto | reflexivity].
  - eexists. split; [vm_compute; reflexivity|]. split; reflexivity.
Qed.

(** ** Partial update *)

Lemma merged_default {A} (old : A) supplied : merged old supplied (default old supplied).
Proof. destruct supplied; reflexivity. Qed.

(** C9. [updateCourse] fails with the not-found error when no record has
    the id.  Otherwise it replaces the first record with that id by its
    shallow merge with the supplied fields and returns the merged record:
    a supplied field takes the supplied value, a field not supplied keeps
    its value, and every other record of the store is unchanged. *)
Theorem updateCourse_shallow_merge (w : World) (i : number) (updates : CourseUpdate) :
  ((forall c, In c (courses w) -> id c <> i) ->
     (exists u, MockApiClient.updateCourse i updates w
                = (Throw (MockApiClient.not_found i), u)
                /\ courses u = courses w)
     /\ exists w', coursesApi.updateCourse i updates w
                   = (Throw (MockApiClient.not_found i), w')
                   /\ courses w' = courses w)
  /\ ((exists c, In c (courses w) /\ id c = i) ->
      exists (k : nat) (c c' : Course) (w' : World),
        courses w !! k = Some c /\ id c = i
        /\ (exists response u,
              MockApiClient.updateCourse i updates w = (Return response, u)
              /\ data response = c' /\ courses u = <[k := c']> (courses w))
        /\ coursesApi.updateCourse i updates w = (Return c', w')
        /\ length (courses w') = length (courses w)
        /\ courses w' !! k = Some c'
        /\ (forall j, j <> k -> courses w' !! j = courses w !! j)
        /\ merged (id c) (u_id updates) (id c')
        /\ merged (name c) (u_name updates) (name c')
        /\ merged (description c) (u_description updates) (description c')
        /\ merged (duration c) (u_duration updates) (duration c')
        /\ merged (instructor c) (u_instructor updates) (instructor c')
        /\ merged (enrollmentCount c) (u_enrollmentCount updates) (enrollmentCount c')
        /\ merged (isActive c) (u_isActive updates) (isActive c')).
Proof.
  split.
  - intros Habsent%findIndex_absent. split.
    + rewrite updateCourse_run, Habsent. eexists. split; reflexivity.
    + pose proof (updateCourse_outcome i updates w) as Hout.
      rewrite Habsent in Hout. exact Hout.
  - intros (k & c & Hfind & Hk & Hid & _)%findIndex_present.
    pose proof (updateCourse_outcome i updates w) as Hout. rewrite Hfind in Hout.
    destruct Hout as (w' & Hrun & Hstore).
    exists k, c, (merge c updates), w'.
    split; [exact Hk|]. split; [exact Hid|]. split.
    { rewrite updateCourse_run, Hfind. eexists _, _. split; [reflexivity|].
      split; reflexivity. }
    split; [exact Hrun|]. rewrite Hstore.
    split; [apply length_insert|].
    split; [apply list_lookup_insert_eq; eapply lookup_lt_Some, Hk|].
    split; [intros j Hj; apply list_lookup_insert_ne; congruence|].
    repeat split; apply merged_default.
Qed.

Lemma updateCourse_shallow_merge_witness :
  let w := boot (fun _ => (1 # 2)%Q) in
  let updates :=
    mkCourseUpdate None (Some (lit "CSS Advanced")) None None None None None in
  exists (c c' : Course) (w' : World),
    courses w !! 1%nat = Some c
    /\ coursesApi.updateCourse (Int 2) updates w = (Return c', w')
    /\ name c' = lit "CSS Advanced"
    /\ id c' = id c /\ description c' = description c
    /\ enrollmentCount c' = enrollmentCount c /\ isActive c' = isActive c
    /\ courses w' !! 0%nat = courses w !! 0%nat.
Proof.
  intros w updates.
  destruct (updateCourse_shallow_merge w (Int 2) updates) as [_ Hpresent].
  destruct Hpresent
    as (k & c & c' & w' & Hk & Hid & _ & Hrun & _ & _ & Hothers
        & Mid & Mname & Mdesc & _ & _ & Mcount & Mactive).
  { exists (mkCourse (Int 2) (lit "CSS Mastery")
      (Some (lit "Master CSS styling and responsive design"))
      (Some (lit "6 weeks")) (Some (lit "Mike Chen")) (Some (Int 203)) (Some true)).
    split; [cbn; auto 10 | reflexivity]. }
  assert (k = 1%nat) as ->.
  { destruct k as [|[|[|[|[|k]]]]]; try discriminate Hk;
      injection Hk as <-; try discriminate Hid; reflexivity. }
  exists c, c', w'. split; [exact Hk|]. split; [exact Hrun|].
  split; [exact Mname|]. split; [exact Mid|]. split; [exact Mdesc|].
  split; [exact Mcount|]. split; [exact Mactive|]. apply Hothers. discriminate.
Defined.

(** * Further properties *)

(** ** Every run of the retry loop *)

Lemma schedule_snoc delay attempt errors e :
  schedule delay attempt (errors ++ [e])
  = failures_then delay attempt errors [Failed e].
Proof.
  revert attempt. induction errors as [|e0 rest IH]; intros attempt; [reflexivity|].
  cbn [app failures_then]. rewrite <- IH.
  destruct rest; reflexivity.
Qed.

Lemma failures_then_invocations delay attempt errors final :
  invocations (failures_then delay attempt errors final)
  = (length errors + invocations final)%nat.
Proof.
  revert attempt. induction errors as [|e rest IH]; intros attempt; [reflexivity|].
  cbn [failures_then]. unfold invocations in *.
  cbn [List.filter is_invocation length]. rewrite IH. reflexivity.
Qed.

Lemma failures_then_waits delay attempt errors final :
  0 < attempt ->
  waits final = [] ->
  total (waits (failures_then delay attempt errors final))
  = delay * 2 ^ (attempt - 1) * (2 ^ Z.of_nat (length errors) - 1).
Proof.
  intros Hpos Hfinal. revert attempt Hpos.
  induction errors as [|e rest IH]; intros attempt Hpos.
  - cbn [failures_then length]. rewrite Hfinal. cbn. lia.
  - cbn [failures_then waits total fold_right length]. fold (total (waits
      (failures_then delay (attempt + 1) rest final))).
    rewrite IH by lia. rewrite Nat2Z.inj_succ, Z.pow_succ_r by lia.
    replace (attempt + 1 - 1) with (Z.succ (attempt - 1)) by lia.
    rewrite Z.pow_succ_r by lia. lia.
Qed.

Section AnyRun.
Context {W : Type} `{Runtime W} {T : Type}.
Variable operation : M W T.

(** With [k + 1] attempts left the loop stops at the first success, or
    after all of them failed. *)
Lemma attempts_shape (k : nat) :
  forall maxAttempts delay attempt lastError w journal r w' journal',
    maxAttempts = attempt + Z.of_nat k ->
    attempts (S k) (probed operation) maxAttempts delay attempt lastError (w, journal)
    = (r, (w', journal')) ->
    (exists v errors,
       r = Return v /\ (length errors <= k)%nat
       /\ journal' = rev (failures_then delay attempt errors [Succeeded]) ++ journal)
    \/ (exists e errors,
       r = Throw e /\ length errors = k
       /\ journal' = rev (failures_then delay attempt errors [Failed e]) ++ journal).
Proof.
  induction k as [|k IH];
    intros maxAttempts delay attempt lastError w journal r w' journal' Hmax;
    rewrite attempts_S; (destruct (Z.leb_spec attempt maxAttempts); [|lia]);
    unfold probed at 1; cbn [console probe_runtime fst snd];
    destruct (operation _) as [[v|e] w1].
  - intros [= <- <- <-]. left. exists v, []. split; [reflexivity|].
    split; [cbn; lia | reflexivity].
  - cbv zeta. destruct (Z.eqb_spec attempt maxAttempts); [|lia].
    cbn [console probe_runtime fst snd]. intros [= <- <- <-].
    right. exists e, []. split; [reflexivity|]. split; reflexivity.
  - intros [= <- <- <-]. left. exists v, []. split; [reflexivity|].
    split; [cbn; lia | reflexivity].
  - cbv zeta. destruct (Z.eqb_spec attempt maxAttempts); [lia|].
    cbn [timer console probe_runtime fst snd]. intros Hrun.
    apply IH in Hrun; [|lia].
    destruct Hrun as [(v & errors & -> & Hlen & ->) | (e' & errors & -> & Hlen & ->)].
    + left. exists v, (e :: errors). split; [reflexivity|].
      split; [cbn [length]; lia|]. cbn [failures_then rev]. rewrite <- !app_assoc.
      reflexivity.
    + right. exists e', (e :: errors). split; [reflexivity|].
      split; [cbn [length]; lia|]. cbn [failures_then rev]. rewrite <- !app_assoc.
      reflexivity.
Qed.

End AnyRun.

(** X1. Whatever the operation does, a call of [withRetry] with
    [maxAttempts >= 1] either returns the value of its first successful
    invocation, after [k < maxAttempts] failed ones each followed by its
    backoff, or throws the error of the [maxAttempts]-th failed invocation,
    with no wait after it.  It never makes more than [maxAttempts]
    invocations, and after [k] failures it has waited
    [delay * (2^k - 1)] ms in all. *)
Theorem withRetry_run_shape {W : Type} `{Runtime W} {T : Type}
    (operation : M W T) (maxAttempts delay : Z) (w w' : W)
    (r : Outcome T) (journal : list Obs) :
  1 <= maxAttempts ->
  withRetry (probed operation) maxAttempts delay (w, []) = (r, (w', journal)) ->
  withRetry operation maxAttempts delay w = (r, w')
  /\ exists (errors : list thrown) (final : Obs),
      rev journal = failures_then delay 1 errors [final]
      /\ Z.of_nat (length errors) < maxAttempts
      /\ Z.of_nat (invocations (rev journal)) = Z.of_nat (length errors) + 1
      /\ Z.of_nat (invocations (rev journal)) <= maxAttempts
      /\ total (waits (rev journal)) = delay * (2 ^ Z.of_nat (length errors) - 1)
      /\ ((exists v, r = Return v /\ final = Succeeded)
          \/ (exists e, r = Throw e /\ final = Failed e
                        /\ Z.of_nat (length errors) + 1 = maxAttempts)).
Proof.
  intros Hmax Hrun. split.
  { unfold withRetry in *. rewrite (attempts_probed operation _ _ _ _ _ w []), Hrun.
    reflexivity. }
  unfold withRetry in Hrun.
  destruct (Z.to_nat maxAttempts) as [|k] eqn:Hk; [lia|].
  apply attempts_shape in Hrun; [|lia].
  assert (Hshape : forall errors final,
    journal = rev (failures_then delay 1 errors [final]) ++ [] ->
    is_invocation final = true ->
    rev journal = failures_then delay 1 errors [final]
    /\ Z.of_nat (invocations (rev journal)) = Z.of_nat (length errors) + 1
    /\ total (waits (rev journal)) = delay * (2 ^ Z.of_nat (length errors) - 1)).
  { intros errors final -> Hfinal. rewrite app_nil_r, rev_involutive.
    split; [reflexivity|]. split.
    - rewrite failures_then_invocations. unfold invocations.
      cbn [List.filter]. rewrite Hfinal. cbn [length]. lia.
    - rewrite failures_then_waits; [cbn; lia | lia |].
      destruct final; [reflexivity | reflexivity | discriminate]. }
  destruct Hrun as [(v & errors & -> & Hlen & Hj) | (e & errors & -> & Hlen & Hj)].
  - destruct (Hshape errors Succeeded Hj eq_refl) as (Hrev & Hinv & Hwait).
    exists errors, Succeeded. split; [exact Hrev|]. split; [lia|].
    split; [exact Hinv|]. split; [lia|]. split; [exact Hwait|]. left. eauto.
  - destruct (Hshape errors (Failed e) Hj eq_refl) as (Hrev & Hinv & Hwait).
    exists errors, (Failed e). split; [exact Hrev|]. split; [lia|].
    split; [exact Hinv|]. split; [lia|]. split; [exact Hwait|].
    right. exists e. split; [reflexivity|]. split; [reflexivity | lia].
Qed.

Lemma withRetry_run_shape_witness :
  let flaky : M World Z := fun w =>
    if (drawn w <? 2)%nat then (bind Math_random (fun _ => throw Undefined)) w
    else (Return 42, w) in
  let run := withRetry (probed flaky) 3 1000 (boot (fun _ => 0%Q), []) in
  fst run = Return 42
  /\ exists (errors : list thrown) (final : Obs),
      rev (snd (snd run)) = failures_then 1000 1 errors [final]
      /\ total (waits (rev (snd (snd run)))) = 1000 * (2 ^ Z.of_nat (length errors) - 1).
Proof.
  intros flaky run.
  assert (Hrun : withRetry (probed flaky) 3 1000 (boot (fun _ => 0%Q), [])
                 = (Return 42, (fst (snd run), snd (snd run))))
    by (vm_compute; reflexivity).
  split; [vm_compute; reflexivity|].
  destruct (withRetry_run_shape flaky 3 1000 _ _ _ _ ltac:(lia) Hrun)
    as (_ & errors & final & Hrev & _ & _ & _ & Hwait & _).
  exists errors, final. split; assumption.
Defined.

(** X2. With [maxAttempts <= 0] the loop body never runs: the operation is
    not invoked, nothing is logged or awaited, and what is thrown is the
    never-assigned [lastError], that is [undefined]. *)
Theorem withRetry_without_attempts {W : Type} `{Runtime W} {T : Type}
    (operation : M W T) (maxAttempts delay : Z) (w : W) :
  maxAttempts <= 0 ->
  withRetry operation maxAttempts delay w = (Throw Undefined, w)
  /\ withRetry (probed operation) maxAttempts delay (w, []) = (Throw Undefined, (w, [])).
Proof.
  intros Hmax. unfold withRetry. split; apply attempts_exit; lia.
Qed.

Lemma withRetry_without_attempts_witness :
  withRetry (MockApiClient.fetchCourseById (Int 1)) 0 1000 (boot (fun _ => 0%Q))
  = (Throw Undefined, boot (fun _ => 0%Q)).
Proof.
  apply (withRetry_without_attempts (MockApiClient.fetchCourseById (Int 1)) 0 1000
           (boot (fun _ => 0%Q))).
  lia.
Defined.

(** ** What the public calls do to the store *)

Lemma getCourses_store w : courses (snd (coursesApi.getCourses w)) = courses w.
Proof.
  destruct (coursesApi.getCourses w) as [r w'] eqn:Hrun.
  apply getCourses_elapsed in Hrun as (_ & Hstore & _). exact Hstore.
Qed.

Lemma getCourse_store i w : courses (snd (coursesApi.getCourse i w)) = courses w.
Proof.
  pose proof (getCourse_outcome i w) as Hout.
  destruct (find _ _); destruct Hout as (w' & -> & Hstore); exact Hstore.
Qed.

Lemma checkApiHealth_store w : courses (snd (checkApiHealth w)) = courses w.
Proof.
  unfold checkApiHealth. pose proof (getCourses_store w) as Hstore.
  destruct (coursesApi.getCourses w) as [r w1]. cbn [snd] in Hstore.
  destruct (clock w1 - clock w <? 5000), r; cbn [snd]; exact Hstore.
Qed.

(** X3. The read operations [getCourses], [getCourse] and
    [checkApiHealth] never modify the store, whether they succeed, fail
    or time out. *)
Theorem reads_leave_store_alone (w : World) (i : number) :
  courses (snd (coursesApi.getCourses w)) = courses w
  /\ courses (snd (coursesApi.getCourse i w)) = courses w
  /\ courses (snd (checkApiHealth w)) = courses w.
Proof.
  split; [apply getCourses_store|]. split; [apply getCourse_store|].
  apply checkApiHealth_store.
Qed.

(** X4. A write that fails changes nothing, and no write removes a
    record: a failed [createCourse], [updateCourse] or [deleteCourse]
    leaves the store as it was; a successful create makes it one record
    longer; a successful update or delete keeps its length. *)
Theorem writes_keep_records (w : World) :
  (forall courseData r w', coursesApi.createCourse courseData w = (r, w') ->
     match r with
     | Throw _ => courses w' = courses w
     | Return c => courses w' = courses w ++ [c]
     end)
  /\ (forall i updates r w', coursesApi.updateCourse i updates w = (r, w') ->
        length (courses w') = length (courses w)
        /\ match r with
           | Throw _ => courses w' = courses w
           | Return _ => True
           end)
  /\ (forall i r w', coursesApi.deleteCourse i w = (r, w') ->
        length (courses w') = length (courses w)
        /\ match r with
           | Throw _ => courses w' = courses w
           | Return _ => True
           end).
Proof.
  split; [|split].
  - intros courseData r w' Hrun. pose proof (createCourse_outcome courseData w) as Hout.
    destruct (_ || _); destruct Hout as (u & Hu & Hstore);
      rewrite Hu in Hrun; injection Hrun as <- <-; exact Hstore.
  - intros i updates r w' Hrun. pose proof (updateCourse_outcome i updates w) as Hout.
    destruct (findIndex _ _) as [[k c]|]; destruct Hout as (u & Hu & Hstore);
      rewrite Hu in Hrun; injection Hrun as <- <-; rewrite Hstore.
    + split; [apply length_insert | exact I].
    + split; reflexivity.
  - intros i r w' Hrun. pose proof (deleteCourse_outcome i w) as Hout.
    destruct (findIndex _ _) as [[k c]|]; destruct Hout as (u & Hu & Hstore);
      rewrite Hu in Hrun; injection Hrun as <- <-; rewrite Hstore.
    + split; [apply length_insert | exact I].
    + split; reflexivity.
Qed.

Lemma writes_keep_records_witness :
  let w := boot (fun _ => 0%Q) in
  let run := coursesApi.deleteCourse (Int 9) w in
  (exists e, fst run = Throw e) /\ courses (snd run) = courses w.
Proof.
  intros w run. split; [eexists; vm_compute; reflexivity|].
  destruct (writes_keep_records w) as (_ & _ & Hdelete).
  destruct (Hdelete (Int 9) (fst run) (snd run)) as [_ Hstore].
  { apply surjective_pairing. }
  assert (Hthrow : fst run = Throw (MockApiClient.not_found (Int 9)))
    by (vm_compute; reflexivity).
  rewrite Hthrow in Hstore. exact Hstore.
Defined.

(** ** Deleting twice, and undoing a delete *)

(** Replacing the record [findIndex] found by one with the same id does
    not move what [findIndex] finds. *)
Lemma findIndex_insert i (cs : list Course) k c c' :
  findIndex (has_id i) cs = Some (k, c) ->
  id c' = id c ->
  findIndex (has_id i) (<[k := c']> cs) = Some (k, c').
Proof.
  intros (Hk & Hc & Hfirst)%list_find_Some Hid.
  apply list_find_Some. split; [|split].
  - apply list_lookup_insert_eq. eapply lookup_lt_Some, Hk.
  - unfold has_id in *. rewrite Hid. exact Hc.
  - intros j y Hj Hlt. rewrite list_lookup_insert_ne in Hj by lia.
    exact (Hfirst j y Hj Hlt).
Qed.

(** X5. Soft delete ignores the [isActive] flag when it looks the record
    up, so it can be repeated: deleting an id that is present returns
    [true], and deleting it again returns [true] again and changes
    nothing more. *)
Theorem deleteCourse_repeatable (w : World) (i : number) :
  (exists c, In c (courses w) /\ id c = i) ->
  exists w1 w2,
    coursesApi.deleteCourse i w = (Return true, w1)
    /\ coursesApi.deleteCourse i w1 = (Return true, w2)
    /\ courses w2 = courses w1.
Proof.
  intros (k & c & Hfind & _)%findIndex_present.
  pose proof (deleteCourse_outcome i w) as Hout. rewrite Hfind in Hout.
  destruct Hout as (w1 & Hrun1 & Hstore1).
  pose proof (deleteCourse_outcome i w1) as Hout.
  rewrite Hstore1, (findIndex_insert i _ k c (deactivate c) Hfind eq_refl) in Hout.
  destruct Hout as (w2 & Hrun2 & Hstore2).
  exists w1, w2. split; [exact Hrun1|]. split; [exact Hrun2|].
  rewrite Hstore2, Hstore1, list_insert_insert_eq. reflexivity.
Qed.

Lemma deleteCourse_repeatable_witness :
  exists w1 w2,
    coursesApi.deleteCourse (Int 3) (boot (fun _ => 0%Q)) = (Return true, w1)
    /\ coursesApi.deleteCourse (Int 3) w1 = (Return true, w2)
    /\ courses w2 = courses w1.
Proof.
  apply (deleteCourse_repeatable (boot (fun _ => 0%Q)) (Int 3)).
  eexists. split; [cbn; do 2 right; left; reflexivity | reflexivity].
Defined.

Lemma merge_reactivate_deactivate c :
  isActive c = Some true -> merge (deactivate c) reactivate = c.
Proof. destruct c; cbn. intros ->. reflexivity. Qed.

(** X6. [updateCourse] finds soft-deleted records too, so a delete can be
    undone: deleting the id of a record that was active and then updating
    that id with [{ isActive: true }] returns the record as it was and
    puts the store back exactly as it was before the delete. *)
Theorem deleteCourse_undone_by_update (w : World) (i : number) (k : nat) (c : Course) :
  findIndex (has_id i) (courses w) = Some (k, c) ->
  isActive c = Some true ->
  exists w1 w2,
    coursesApi.deleteCourse i w = (Return true, w1)
    /\ coursesApi.updateCourse i reactivate w1 = (Return c, w2)
    /\ courses w2 = courses w.
Proof.
  intros Hfind Hactive.
  pose proof (deleteCourse_outcome i w) as Hout. rewrite Hfind in Hout.
  destruct Hout as (w1 & Hrun1 & Hstore1).
  pose proof (updateCourse_outcome i reactivate w1) as Hout.
  rewrite Hstore1, (findIndex_insert i _ k c (deactivate c) Hfind eq_refl),
    (merge_reactivate_deactivate c Hactive) in Hout.
  destruct Hout as (w2 & Hrun2 & Hstore2).
  exists w1, w2. split; [exact Hrun1|]. split; [exact Hrun2|].
  rewrite Hstore2, list_insert_insert_eq. apply list_insert_id.
  apply list_find_Some in Hfind as (Hk & _). exact Hk.
Qed.

Lemma deleteCourse_undone_by_update_witness :
  let w := boot (fun _ => 0%Q) in
  exists c w1 w2,
    courses w !! 2%nat = Some c
    /\ coursesApi.deleteCourse (Int 3) w = (Return true, w1)
    /\ coursesApi.updateCourse (Int 3) reactivate w1 = (Return c, w2)
    /\ courses w2 = courses w.
Proof.
  intros w. eexists. 
  edestruct (deleteCourse_undone_by_update w (Int 3) 2) as (w1 & w2 & H1 & H2 & H3);
    [vm_compute; reflexivity | reflexivity |].
  exists w1, w2. split; [reflexivity|]. split; [exact H1|]. split; [exact H2 | exact H3].
Defined.

(** ** Reading back what was created *)

Lemma find_snoc {A} (p : A -> bool) (l : list A) (x : A) :
  (forall y, In y l -> p y = false) -> p x = true -> find p (l ++ [x]) = Some x.
Proof.
  intros Hnone Hx. induction l as [|y l IH]; cbn [app find].
  - rewrite Hx. reflexivity.
  - rewrite (Hnone y (or_introl eq_refl)). apply IH.
    intros z Hz. apply Hnone. right. exact Hz.
Qed.

(** X7. A record that was just created can be read back: on a non-empty
    store whose ids are safe integers (so that the id [top + 1] of the
    new record is an exact sum, greater than every id in the store),
    [getCourse] on the id a successful [createCourse] returned gives back
    that very record, and a successful [getCourses] lists it last. *)
Theorem createCourse_then_getCourse (w : World) (courseData : CourseData) :
  courses w <> [] ->
  Forall (fun c => room_for 1 (id c)) (courses w) ->
  (3 <= length (trim (d_name courseData)))%nat ->
  exists top c w1 w2,
    coursesApi.createCourse courseData w = (Return c, w1)
    /\ id c = Int (top + 1)
    /\ top + 1 <= MAX_SAFE_INTEGER + 1
    /\ (forall old, In old (courses w) -> exists z, id old = Int z /\ z <= top)
    /\ coursesApi.getCourse (id c) w1 = (Return c, w2)
    /\ forall cs w3, coursesApi.getCourses w1 = (Return cs, w3) -> last cs = Some c.
Proof.
  intros Hne Hroom Hlen.
  destruct (Math_max_Int (map id (courses w))) as (top & Hmax & Hin & Hub).
  { destruct (courses w); [congruence | discriminate]. }
  { apply Forall_map. eapply Forall_impl; [exact Hroom|].
    intros c Hc. exact (room_for_finite 1 _ Hc). }
  assert (Htop : top + 1 <= MAX_SAFE_INTEGER + 1).
  { apply in_map_iff in Hin as (c0 & Hid0 & Hin0).
    pose proof (proj1 (List.Forall_forall _ _) Hroom c0 Hin0) as Hc0.
    cbv beta in Hc0. rewrite Hid0 in Hc0. exact (proj2 Hc0). }
  assert (Hold : forall old, In old (courses w) -> exists z, id old = Int z /\ z <= top).
  { intros old Hin0.
    pose proof (proj1 (List.Forall_forall _ _) Hroom old Hin0) as Hc0. cbv beta in Hc0.
    destruct (id old) as [|z] eqn:Hz; [contradiction|]. exists z. split; [reflexivity|].
    apply Hub. rewrite <- Hz. apply in_map, Hin0. }
  destruct (createCourse_accepted courseData w Hlen) as [_ (w1 & Hrun1 & Hstore1)].
  rewrite Hmax in *. cbn [number_add] in *.
  set (c := newCourse_of courseData (Int (top + 1))) in *.
  exists top, c, w1. pose proof (getCourse_outcome (id c) w1) as Hget.
  rewrite Hstore1, (find_snoc _ _ c) in Hget.
  - destruct Hget as (w2 & Hrun2 & _). exists w2.
    split; [exact Hrun1|]. split; [reflexivity|]. split; [exact Htop|].
    split; [exact Hold|]. split; [exact Hrun2|].
    intros cs w3 Hlist. rewrite (getCourses_returns w1 cs w3 Hlist), Hstore1, List.filter_app.
    cbn [List.filter isActive c newCourse_of truthy]. apply last_snoc.
  - intros y Hy. apply andb_false_intro1.
    destruct (has_id (id c) y) eqn:Hid; [|reflexivity].
    apply has_id_eq in Hid. cbn [id c newCourse_of] in Hid.
    assert (top + 1 <= top); [|lia]. apply Hub. rewrite <- Hid. apply in_map, Hy.
  - cbn [has_id id isActive c newCourse_of truthy number_eqb]. rewrite Z.eqb_refl.
    reflexivity.
Qed.

Lemma createCourse_then_getCourse_witness :
  exists c w1 w2,
    coursesApi.createCourse some_course (boot (fun _ => 0%Q)) = (Return c, w1)
    /\ coursesApi.getCourse (id c) w1 = (Return c, w2).
Proof.
  destruct (createCourse_then_getCourse (boot (fun _ => 0%Q)) some_course)
    as (top & c & w1 & w2 & H1 & _ & _ & _ & H2 & _).
  - discriminate.
  - repeat constructor; vm_compute; discriminate.
  - vm_compute. lia.
  - exists c, w1, w2. split; assumption.
Defined.

(** ** Ids along a run of the service *)







(** ** What a failure costs *)

(** An operation that, on the store [cs], throws [e] once its latency of
    [ms] has elapsed is tried three times, 1000ms and 2000ms apart. *)
Lemma retried_failure_cost {T} (operation : M World T) e ms w :
  (forall u, courses u = courses w -> operation u = (Throw e, after_latency ms u)) ->
  exists w',
    coursesApi.retried operation w = (Throw e, w')
    /\ clock w' = clock w + 3 * Z.max 0 ms + 3000
    /\ timers (timeline w') = [ms; 2000; ms; 1000; ms] ++ timers (timeline w).
Proof.
  intros Hop. unfold coursesApi.retried, withRetry.
  change (Z.to_nat (retryAttempts API_CONFIG)) with 3%nat.
  change (retryAttempts API_CONFIG) with 3. change (retryDelay API_CONFIG) with 1000.
  erewrite attempts_again; [| lia | apply Hop; reflexivity].
  erewrite attempts_again; [| lia | apply Hop; reflexivity].
  erewrite (attempts_give_up _ _ 3); [| apply Hop; reflexivity].
  eexists. split; [reflexivity|]. split; [|reflexivity].
  cbn [clock after_latency record advance console timer World_runtime].
  change (1000 * 2 ^ (1 - 1)) with 1000. change (1000 * 2 ^ (1 + 1 - 1)) with 2000.
  lia.
Qed.

(** X9. A not-found error is retried like any other: [getCourse] on an id
    with no active record, and [updateCourse] and [deleteCourse] on an id
    with no record, invoke the store three times, wait 1000ms and 2000ms
    in between, and only then throw the not-found error, 4200ms, 5700ms
    and 4800ms after the call. *)
Theorem missing_id_is_tried_three_times (w : World) (i : number) (updates : CourseUpdate) :
  (List.find (fun c => has_id i c && truthy (isActive c)) (courses w) = None ->
     exists w', coursesApi.getCourse i w = (Throw (MockApiClient.not_found i), w')
                /\ clock w' = clock w + 4200
                /\ timers (timeline w') = [400; 2000; 400; 1000; 400] ++ timers (timeline w))
  /\ ((forall c, In c (courses w) -> id c <> i) ->
      (exists w', coursesApi.updateCourse i updates w
                  = (Throw (MockApiClient.not_found i), w')
                  /\ clock w' = clock w + 5700
                  /\ timers (timeline w')
                     = [900; 2000; 900; 1000; 900] ++ timers (timeline w))
      /\ (exists w', coursesApi.deleteCourse i w
                     = (Throw (MockApiClient.not_found i), w')
                     /\ clock w' = clock w + 4800
                     /\ timers (timeline w')
                        = [600; 2000; 600; 1000; 600] ++ timers (timeline w))).
Proof.
  split.
  - intros Hfind.
    destruct (retried_failure_cost (MockApiClient.fetchCourseById i)
                (MockApiClient.not_found i) 400 w) as (w' & Hrun & Hclock & Htimers).
    { intros u Hu. rewrite fetchCourseById_run, Hu, Hfind. reflexivity. }
    unfold coursesApi.getCourse, try_catch, bind. rewrite Hrun.
    eexists. split; [reflexivity|].
    split; [rewrite clock_console; lia | exact Htimers].
  - intros Habsent%findIndex_absent. split.
    + destruct (retried_failure_cost (MockApiClient.updateCourse i updates)
                  (MockApiClient.not_found i) 900 w) as (w' & Hrun & Hclock & Htimers).
      { intros u Hu. rewrite updateCourse_run, Hu, Habsent. reflexivity. }
      unfold coursesApi.updateCourse, try_catch, bind. rewrite Hrun.
      eexists. split; [reflexivity|].
    split; [rewrite clock_console; lia | exact Htimers].
    + destruct (retried_failure_cost (MockApiClient.deleteCourse i)
                  (MockApiClient.not_found i) 600 w) as (w' & Hrun & Hclock & Htimers).
      { intros u Hu. rewrite deleteCourse_run, Hu, Habsent. reflexivity. }
      unfold coursesApi.deleteCourse, try_catch, bind. rewrite Hrun.
      eexists. split; [reflexivity|].
    split; [rewrite clock_console; lia | exact Htimers].
Qed.

Lemma missing_id_is_tried_three_times_witness :
  let w := boot (fun _ => 0%Q) in
  exists w', coursesApi.getCourse (Int 99) w
             = (Throw (MockApiClient.not_found (Int 99)), w')
             /\ clock w' = clock w + 4200.
Proof.
  intros w.
  destruct (missing_id_is_tried_three_times w (Int 99) reactivate) as [Hget _].
  destruct Hget as (w' & Hrun & Hclock & _); [vm_compute; reflexivity|].
  exists w'. split; assumption.
Defined.

(** X20. A call that finds its record, or creates one, is made once: a
    [getCourse] with an active record for the id, an accepted
    [createCourse], and an [updateCourse] or [deleteCourse] on an id that
    is present succeed at the first attempt, after their latency of 400ms,
    1200ms, 900ms and 600ms and no backoff. *)
Theorem success_takes_one_attempt (w : World) (i : number) :
  (forall c,
     List.find (fun c => has_id i c && truthy (isActive c)) (courses w) = Some c ->
     exists w', coursesApi.getCourse i w = (Return c, w')
                /\ clock w' = clock w + 400
                /\ timers (timeline w') = 400 :: timers (timeline w))
  /\ (forall courseData,
        (3 <= length (trim (d_name courseData)))%nat ->
        exists c w', coursesApi.createCourse courseData w = (Return c, w')
                     /\ clock w' = clock w + 1200
                     /\ timers (timeline w') = 1200 :: timers (timeline w))
  /\ (forall k c updates,
        findIndex (has_id i) (courses w) = Some (k, c) ->
        (exists c' w', coursesApi.updateCourse i updates w = (Return c', w')
                       /\ clock w' = clock w + 900
                       /\ timers (timeline w') = 900 :: timers (timeline w))
        /\ (exists w', coursesApi.deleteCourse i w = (Return true, w')
                       /\ clock w' = clock w + 600
                       /\ timers (timeline w') = 600 :: timers (timeline w))).
Proof.
  split; [|split].
  - intros c Hfind. unfold coursesApi.getCourse, try_catch, bind.
    erewrite retried_first_success
      by (rewrite fetchCourseById_run, courses_console, Hfind; reflexivity).
    eexists. split; [reflexivity|]. split; [cbn; lia | reflexivity].
  - intros courseData Hlen. unfold coursesApi.createCourse, try_catch, bind.
    erewrite retried_first_success
      by (rewrite createCourse_run, (name_accepted _ Hlen); reflexivity).
    eexists _, _. split; [reflexivity|]. split; [cbn; lia | reflexivity].
  - intros k c updates Hfind. split.
    + unfold coursesApi.updateCourse, try_catch, bind.
      erewrite retried_first_success
        by (rewrite updateCourse_run, courses_console, Hfind; reflexivity).
      eexists _, _. split; [reflexivity|]. split; [cbn; lia | reflexivity].
    + unfold coursesApi.deleteCourse, try_catch, bind.
      erewrite retried_first_success
        by (rewrite deleteCourse_run, courses_console, Hfind; reflexivity).
      eexists. split; [reflexivity|]. split; [cbn; lia | reflexivity].
Qed.

Lemma success_takes_one_attempt_witness :
  let w := boot (fun _ => 0%Q) in
  exists w', coursesApi.deleteCourse (Int 4) w = (Return true, w')
             /\ clock w' = clock w + 600.
Proof.
  intros w. destruct (success_takes_one_attempt w (Int 4)) as (_ & _ & Hwrite).
  destruct (Hwrite 3%nat
              (mkCourse (Int 4) (lit "React In Depth")
                 (Some (lit "Build modern web applications with React"))
                 (Some (lit "10 weeks")) (Some (lit "Emily Davis"))
                 (Some (Int 245)) (Some true))
              reactivate) as [_ (w' & Hrun & Hclock & _)];
    [vm_compute; reflexivity|].
  exists w'. split; assumption.
Defined.

(** ** Looking a course up *)

(** X21. [getCourse] returns a record of the store that has the requested
    id and is active, the first such record; it succeeds whenever the
    store has one and fails with the not-found error exactly when it has
    none, be it that the id is unknown or that its records are
    inactive. *)
Theorem getCourse_finds_active (w : World) (i : number) :
  (forall c w', coursesApi.getCourse i w = (Return c, w') ->
     In c (courses w) /\ id c = i /\ isActive c = Some true
     /\ exists k, courses w !! k = Some c
                  /\ forall j cj, courses w !! j = Some cj -> (j < k)%nat ->
                        ~ (id cj = i /\ isActive cj = Some true))
  /\ ((exists c, In c (courses w) /\ id c = i /\ isActive c = Some true) ->
      exists c w', coursesApi.getCourse i w = (Return c, w'))
  /\ ((forall c, In c (courses w) -> id c = i -> isActive c <> Some true) <->
      exists w', coursesApi.getCourse i w = (Throw (MockApiClient.not_found i), w')).
Proof.
  assert (Hpred : forall c, has_id i c && truthy (isActive c) = true
                            <-> id c = i /\ isActive c = Some true).
  { intros c. rewrite andb_true_iff, has_id_eq.
    destruct (isActive c) as [[|]|]; cbn [truthy]; intuition congruence. }
  pose proof (getCourse_outcome i w) as Hout.
  destruct (find _ _) as [found|] eqn:Hfind.
  - destruct Hout as (u & Hu & _).
    pose proof (find_some _ _ Hfind) as [Hin [Hid Hactive]%Hpred].
    split; [|split].
    + intros c w' Hrun. rewrite Hu in Hrun. injection Hrun as <- _.
      split; [exact Hin|]. split; [exact Hid|]. split; [exact Hactive|].
      clear Hu Hin. induction (courses w) as [|x l IH]; [discriminate|].
      cbn [find] in Hfind. destruct (has_id i x && truthy (isActive x)) eqn:Hx.
      * injection Hfind as ->. exists 0%nat. split; [reflexivity|]. intros; lia.
      * destruct (IH Hfind) as (k & Hk & Hfirst). exists (S k). split; [exact Hk|].
        intros [|j] cj Hj Hlt.
        -- injection Hj as <-. intros Hboth%Hpred. congruence.
        -- apply (Hfirst j cj Hj). lia.
    + intros _. exists found, u. exact Hu.
    + split.
      * intros Hnone. destruct (Hnone found Hin Hid Hactive).
      * intros (w' & Hrun). rewrite Hu in Hrun. discriminate.
  - destruct Hout as (u & Hu & _). split; [|split].
    + intros c w' Hrun. rewrite Hu in Hrun. discriminate.
    + intros (c & Hin & Hboth). pose proof (find_none _ _ Hfind c Hin) as Hc.
      cbv beta in Hc. apply Hpred in Hboth. congruence.
    + split; [intros _; exists u; exact Hu|].
      intros _ c Hin Hid Hactive. pose proof (find_none _ _ Hfind c Hin) as Hc.
      cbv beta in Hc. rewrite (proj2 (Hpred c) (conj Hid Hactive)) in Hc. discriminate.
Qed.

Lemma getCourse_finds_active_witness :
  exists c w', coursesApi.getCourse (Int 2) (boot (fun _ => 0%Q)) = (Return c, w').
Proof.
  destruct (getCourse_finds_active (boot (fun _ => 0%Q)) (Int 2)) as (_ & Hfound & _).
  apply Hfound. eexists. split; [cbn; right; left; reflexivity|]. split; reflexivity.
Defined.

(** ** Blank names *)

Lemma trimStart_blank (s : jsstring) :
  forallb isWhiteSpace s = true -> trimStart s = [].
Proof.
  induction s as [|u s IH]; [reflexivity|]. cbn [forallb trimStart].
  intros [Hu Hs]%andb_prop. rewrite Hu. exact (IH Hs).
Qed.

(** X10. A name made of white space only is rejected whatever its length:
    [createCourse] tries three times and throws the name-length
    [ValidationError], and the store is unchanged. *)
Theorem createCourse_rejects_blank_name (w : World) (courseData : CourseData) :
  forallb isWhiteSpace (d_name courseData) = true ->
  exists w',
    coursesApi.createCourse courseData w = (Throw name_too_short, w')
    /\ courses w' = courses w.
Proof.
  intros Hblank. pose proof (createCourse_outcome courseData w) as Hout.
  unfold trim in Hout. rewrite (trimStart_blank _ Hblank) in Hout.
  cbn [rev trimStart length Z.of_nat] in Hout. change (0 <? 3) with true in Hout.
  rewrite orb_true_r in Hout. exact Hout.
Qed.

Lemma createCourse_rejects_blank_name_witness :
  let courseData := mkCourseData (lit "     ") None None None None None in
  (3 <= length (d_name courseData))%nat
  /\ exists w',
      coursesApi.createCourse courseData (boot (fun _ => 0%Q))
      = (Throw name_too_short, w').
Proof.
  intros courseData. split; [vm_compute; lia|].
  destruct (createCourse_rejects_blank_name (boot (fun _ => 0%Q)) courseData)
    as (w' & Hrun & _); [vm_compute; reflexivity|].
  exists w'. exact Hrun.
Defined.

(** ** The list call, sample by sample *)

Lemma fetchCourses_by_samples w :
  MockApiClient.fetchCourses w
  = let w' n := mkWorld (courses w) (entropy w) n (clock w + 800)
        (Console log [Text (lit "[v0] Network simulation: " ++ show_Z 800
                            ++ lit "ms delay completed")]
         :: Timer 800 :: timeline w) in
    match fault_at (entropy w) (drawn w) with
    | Some (network, n) => (Throw (injected network), w' n)
    | None =>
      (Return (mkResponse (active_courses (courses w)) true
                 (lit "Courses fetched successfully") (clock w + 800)),
       w' (S (S (drawn w))))
    end.
Proof.
  unfold MockApiClient.fetchCourses, simulateNetworkDelay, bind, effect, Math_random,
    this_courses, Date_now, throw, ret, fault_at.
  cbn [entropy drawn courses clock timeline record advance console timer World_runtime].
  repeat destruct (Qlt_le_dec _ _); reflexivity.
Qed.

(** X11. The outcome of [getCourses] as a function of the samples: it
    answers with the active records at the first of its three attempts
    that draws no fault, 800ms, 2600ms or 5400ms after the call, having
    consumed one sample per network fault and two per other attempt; if
    all three attempts draw a fault it throws, after 5400ms, the
    translation of the third one. *)
Theorem getCourses_by_samples (w : World) :
  let s := entropy w in
  let answers (elapsed : Z) (n : nat) :=
    exists w', coursesApi.getCourses w = (Return (active_courses (courses w)), w')
               /\ clock w' = clock w + elapsed /\ drawn w' = S (S n) in
  match fault_at s (drawn w) with
  | None => answers 800 (drawn w)
  | Some (_, n1) =>
    match fault_at s n1 with
    | None => answers 2600 n1
    | Some (_, n2) =>
      match fault_at s n2 with
      | None => answers 5400 n2
      | Some (network, n3) =>
        exists w', coursesApi.getCourses w = (Throw (reported network), w')
                   /\ clock w' = clock w + 5400 /\ drawn w' = n3
      end
    end
  end.
Proof.
  intros s answers. subst answers. cbv beta.
  unfold coursesApi.getCourses, try_catch, bind, coursesApi.retried, withRetry.
  change (Z.to_nat (retryAttempts API_CONFIG)) with 3%nat.
  change (retryAttempts API_CONFIG) with 3. change (retryDelay API_CONFIG) with 1000.
  destruct (fault_at s (drawn w)) as [[b1 n1]|] eqn:F1.
  2: { erewrite attempts_return;
         [| lia | rewrite fetchCourses_by_samples; cbv zeta;
                  cbn [entropy drawn record console World_runtime];
                  fold s; rewrite F1; reflexivity].
       eexists. split; [reflexivity|]. split; [cbn; lia | reflexivity]. }
  erewrite attempts_again;
    [| lia | rewrite fetchCourses_by_samples; cbv zeta;
             cbn [entropy drawn record console World_runtime];
             fold s; rewrite F1; reflexivity].
  destruct (fault_at s n1) as [[b2 n2]|] eqn:F2.
  2: { erewrite attempts_return;
         [| lia | rewrite fetchCourses_by_samples; cbv zeta;
                  cbn [entropy drawn record advance console timer World_runtime];
                  fold s; rewrite F2; reflexivity].
       eexists. split; [reflexivity|]. split; [cbn; lia | reflexivity]. }
  erewrite attempts_again;
    [| lia | rewrite fetchCourses_by_samples; cbv zeta;
             cbn [entropy drawn record advance console timer World_runtime];
             fold s; rewrite F2; reflexivity].
  destruct (fault_at s n2) as [[b3 n3]|] eqn:F3.
  2: { erewrite attempts_return;
         [| lia | rewrite fetchCourses_by_samples; cbv zeta;
                  cbn [entropy drawn record advance console timer World_runtime];
                  fold s; rewrite F3; reflexivity].
       eexists. split; [reflexivity|]. split; [cbn; lia | reflexivity]. }
  erewrite (attempts_give_up _ _ 3);
    [| rewrite fetchCourses_by_samples; cbv zeta;
       cbn [entropy drawn record advance console timer World_runtime];
       fold s; rewrite F3; reflexivity].
  destruct b3; eexists; (split; [reflexivity|]); (split; [cbn; lia | reflexivity]).
Qed.

(** ** The dashboard page *)

(** X12. The page's [fetchCourses] logs its start and makes one
    [getCourses] call; afterwards the loading flag is off, the students
    are untouched and the retry counter went up by one exactly when asked
    to.  If that call returned a list, the list is the active records of
    the store and the page shows it, with no error, a healthy API and the
    time of the answer.  If the call threw, what it threw is one of the
    two translated fault errors and the page shows its message, never the
    fallback text; the page keeps the courses and the fetch time it had
    and marks the API unhealthy. *)
Theorem page_fetchCourses_outcome (showRetryCount : bool) (d : Dashboard) (w : World) :
  let started := console log [Text (lit "[v0] Starting course fetch operation...")] w in
  let d' := fst (StudentManagementDashboard.fetchCourses showRetryCount d w) in
  let w' := snd (StudentManagementDashboard.fetchCourses showRetryCount d w) in
  loading d' = false
  /\ students d' = students d
  /\ retryCount d' = retryCount d + (if showRetryCount then 1 else 0)
  /\ courses w' = courses w
  /\ match coursesApi.getCourses started with
     | (Return fetched, answered) =>
       fetched = active_courses (courses w)
       /\ shown_courses d' = fetched
       /\ shown_error d' = None
       /\ apiHealthy d' = Some true
       /\ lastFetchTime d' = Some (clock answered)
       /\ w' = console log [Text (lit "[v0] Course fetch completed successfully")]
                 answered
     | (Throw err, failed) =>
       (err = Error (lit "Network error: Service temporarily unavailable (Status: 503)")
        \/ err = Error (lit "Validation error: Invalid request parameters"))
       /\ (exists msg, err = Error msg /\ shown_error d' = Some msg)
       /\ apiHealthy d' = Some false
       /\ shown_courses d' = shown_courses d
       /\ lastFetchTime d' = lastFetchTime d
       /\ w' = console error [Text (lit "[v0] Course fetch failed:"); Obj err] failed
     end.
Proof.
  unfold StudentManagementDashboard.fetchCourses. cbv zeta.
  set (w0 := console log [Text (lit "[v0] Starting course fetch operation...")] w).
  destruct (coursesApi.getCourses w0) as [[cs|err] w1] eqn:Hrun; cbn [fst snd];
    destruct (getCourses_elapsed w0 _ _ Hrun) as (_ & Hstore & _);
    (split; [reflexivity|]); (split; [reflexivity|]);
    (split; [cbn [retryCount]; destruct showRetryCount; lia|]);
    (split; [exact Hstore|]).
  - split; [exact (getCourses_returns w0 cs w1 Hrun)|]. repeat split.
  - assert (Herr : err = Error (lit
        "Network error: Service temporarily unavailable (Status: 503)")
      \/ err = Error (lit "Validation error: Invalid request parameters")).
    { unfold coursesApi.getCourses, try_catch, bind in Hrun.
      destruct (coursesApi.retried _ w0) as [[r|e0] u] eqn:Hretry; [discriminate|].
      apply retried_fetchCourses_throws in Hretry as [-> | ->];
        injection Hrun as <- _; [left | right]; reflexivity. }
    split; [exact Herr|]. split; [|repeat split].
    destruct Herr as [-> | ->]; eexists; split; reflexivity.
Qed.

(** A page that showed one course: after a fetch whose three attempts all
    hit the network fault it still shows that course, together with the
    network error; after a fetch without fault it shows the five seeded
    courses and no error. *)
Example page_fetchCourses_both_ways :
  let stale := mkDashboard [] [mkCourse (Int 9) (lit "Old") None None None None None]
                 true None None false None false None None 0 in
  let failed :=
    fst (StudentManagementDashboard.fetchCourses true stale (boot (fun _ => 0%Q))) in
  let fetched :=
    fst (StudentManagementDashboard.fetchCourses false stale
           (boot (fun _ => (1 # 2)%Q))) in
  shown_error failed
  = Some (lit "Network error: Service temporarily unavailable (Status: 503)")
  /\ shown_courses failed = shown_courses stale
  /\ apiHealthy failed = Some false
  /\ retryCount failed = 1
  /\ shown_error fetched = None
  /\ shown_courses fetched = seed
  /\ apiHealthy fetched = Some true
  /\ retryCount fetched = 0.
Proof. vm_compute. repeat split. Qed.

Lemma students_update_length studentData d :
  length (students (StudentManagementDashboard.handleUpdateStudent studentData d))
  = length (students d).
Proof.
  unfold StudentManagementDashboard.handleUpdateStudent.
  destruct (editingStudent d); [|reflexivity]. cbn [students]. apply length_map.
Qed.

(** X13. Saving an edit never adds, removes, reorders or renumbers
    students: [handleUpdateStudent] keeps the length of the list and the
    id at every position, leaves every student with another id as it is,
    and gives the students with the edited id the submitted fields while
    keeping the id and enrolment date of the student being edited.  With
    no student being edited it does nothing at all. *)
Theorem handleUpdateStudent_keeps_ids (studentData : StudentData) (d : Dashboard) :
  let d' := StudentManagementDashboard.handleUpdateStudent studentData d in
  length (students d') = length (students d)
  /\ map s_id (students d') = map s_id (students d)
  /\ (editingStudent d = None -> d' = d)
  /\ forall editing, editingStudent d = Some editing ->
       editingStudent d' = None /\ isEditDialogOpen d' = false
       /\ forall k student, students d !! k = Some student ->
            if jsstring_eqb (s_id student) (s_id editing)
            then students d' !! k
                 = Some (mkStudent (s_id student) (sd_name studentData)
                           (sd_email studentData) (sd_course studentData)
                           (sd_profileImage studentData) (s_enrollmentDate editing))
            else students d' !! k = Some student.
Proof.
  intros d'. split; [apply students_update_length|].
  subst d'. unfold StudentManagementDashboard.handleUpdateStudent.
  destruct (editingStudent d) as [editing|]; cbn [students editingStudent isEditDialogOpen].
  - split; [|split; [discriminate|]].
    + rewrite map_map. apply map_ext. intros student.
      unfold jsstring_eqb. case_bool_decide as Hid; [symmetry; exact Hid | reflexivity].
    + intros ? [= <-]. split; [reflexivity|]. split; [reflexivity|].
      intros k student Hk. change (map ?f ?l) with (f <$> l).
      rewrite list_lookup_fmap, Hk. cbn [fmap option_fmap option_map].
      unfold jsstring_eqb. case_bool_decide as Hid; [rewrite Hid|]; reflexivity.
  - split; [reflexivity|]. split; [reflexivity | discriminate].
Qed.

(** X14. Confirming a delete removes every student with the given id and
    only those, keeps the others in their order, and closes the dialog;
    confirming it once more, or for an id no student has, changes the
    list no further. *)
Theorem handleConfirmDelete_removes_id (studentId : jsstring) (d : Dashboard) :
  let d' := StudentManagementDashboard.handleConfirmDelete studentId d in
  (forall student, In student (students d') <->
     In student (students d) /\ s_id student <> studentId)
  /\ sublist (students d') (students d)
  /\ deletingStudent d' = None /\ isDeleteDialogOpen d' = false
  /\ students (StudentManagementDashboard.handleConfirmDelete studentId d') = students d'
  /\ ((forall student, In student (students d) -> s_id student <> studentId) ->
      students d' = students d).
Proof.
  intros d'. subst d'. unfold StudentManagementDashboard.handleConfirmDelete.
  cbn [students deletingStudent isDeleteDialogOpen].
  assert (Hkeep : forall student,
    negb (jsstring_eqb (s_id student) studentId) = true <-> s_id student <> studentId).
  { intros student. unfold jsstring_eqb. case_bool_decide; cbn; split; congruence. }
  split; [|split; [apply filter_sublist|split; [reflexivity|split; [reflexivity|split]]]].
  - intros student. rewrite filter_In, Hkeep. reflexivity.
  - induction (students d) as [|s l IH]; [reflexivity|]. cbn [List.filter].
    destruct (negb _) eqn:Hs; [|exact IH]. cbn [List.filter]. rewrite Hs, IH. reflexivity.
  - intros Hnone. induction (students d) as [|s l IH]; [reflexivity|].
    cbn [List.filter]. rewrite (proj2 (Hkeep s)) by (apply Hnone; left; reflexivity).
    f_equal. apply IH. intros student Hin. apply Hnone. right. exact Hin.
Qed.

(** ** The avatar colours *)

Lemma ToInt32_range z : - 2 ^ 31 <= ToInt32 z < 2 ^ 31.
Proof.
  unfold ToInt32. pose proof (Z.mod_pos_bound (z + 2 ^ 31) (2 ^ 32) ltac:(lia)). lia.
Qed.

Lemma ToInt32_mod z : ToInt32 z mod 2 ^ 32 = z mod 2 ^ 32.
Proof.
  unfold ToInt32. rewrite Zminus_mod_idemp_l. f_equal. lia.
Qed.

Lemma ToInt32_congruent a b : a mod 2 ^ 32 = b mod 2 ^ 32 -> ToInt32 a = ToInt32 b.
Proof.
  intros Hab. unfold ToInt32. f_equal.
  rewrite (Zplus_mod a), (Zplus_mod b), Hab. reflexivity.
Qed.

(** One turn of the loop, on a hash that stands for the polynomial [p]. *)
Lemma hash_step p char :
  Z.land (ToInt32 (ToInt32 (Z.shiftl (ToInt32 (ToInt32 p)) 5) - ToInt32 p + Z.of_N char))
         (ToInt32 (ToInt32 (Z.shiftl (ToInt32 (ToInt32 p)) 5) - ToInt32 p + Z.of_N char))
  = ToInt32 (31 * p + Z.of_N char).
Proof.
  rewrite Z.land_diag. apply ToInt32_congruent.
  rewrite Z.shiftl_mul_pow2 by lia.
  rewrite Zplus_mod, Zminus_mod, !ToInt32_mod, Zmult_mod, !ToInt32_mod.
  rewrite <- Zmult_mod, <- Zminus_mod, <- Zplus_mod. f_equal. lia.
Qed.

Lemma fold_left_step {A B} (f : A -> B -> A) (x : B) (l : list B) (a : A) :
  fold_left f (x :: l) a = fold_left f l (f a x).
Proof. reflexivity. Qed.

Lemma hash_loop str p :
  fold_left
    (fun hash char =>
       let hash := ToInt32 (Z.shiftl (ToInt32 hash) 5) - hash + Z.of_N char in
       Z.land (ToInt32 hash) (ToInt32 hash))
    str (ToInt32 p)
  = ToInt32 (fold_left (fun h char => 31 * h + Z.of_N char) str p).
Proof.
  revert p. induction str as [|char str IH]; intros p; [reflexivity|].
  rewrite !fold_left_step, <- IH. f_equal. apply hash_step.
Qed.

Lemma hash_polynomial str :
  DynamicAvatar.hash str = Z.abs (ToInt32 (polynomial31 str)).
Proof.
  unfold DynamicAvatar.hash, polynomial31. f_equal.
  rewrite <- hash_loop. reflexivity.
Qed.

Lemma hash_range str : 0 <= DynamicAvatar.hash str <= 2 ^ 31.
Proof.
  rewrite hash_polynomial. pose proof (ToInt32_range (polynomial31 str)). lia.
Qed.

(** X15. The hash of the avatar is the absolute value of the 32-bit
    wrap-around of [c0 * 31^(n-1) + ... + c(n-1)], the polynomial in 31 of
    the code units of the string; it lies between 0 and 2^31 inclusive,
    and the empty string hashes to 0. *)
Theorem avatar_hash_is_polynomial (str : jsstring) :
  DynamicAvatar.hash str = Z.abs (ToInt32 (polynomial31 str))
  /\ 0 <= DynamicAvatar.hash str <= 2 ^ 31
  /\ DynamicAvatar.hash [] = 0
  /\ forall char, polynomial31 (str ++ [char]) = 31 * polynomial31 str + Z.of_N char.
Proof.
  split; [apply hash_polynomial|]. split; [apply hash_range|].
  split; [reflexivity|]. intros char. unfold polynomial31.
  rewrite fold_left_app. reflexivity.
Qed.

(** X16. Both hues of the avatar gradient are valid hue angles, whatever
    the name and e-mail: the primary hue lies in [0, 360), and the
    secondary hue is the primary one turned by 60 degrees, again in
    [0, 360). *)
Theorem avatar_hues_in_range (name email : jsstring) :
  0 <= DynamicAvatar.hue name email < 360
  /\ 0 <= DynamicAvatar.secondaryHue name email < 360
  /\ DynamicAvatar.secondaryHue name email
     = (if DynamicAvatar.hue name email <? 300
        then DynamicAvatar.hue name email + 60
        else DynamicAvatar.hue name email - 300).
Proof.
  assert (Hhue : 0 <= DynamicAvatar.hue name email < 360).
  { unfold DynamicAvatar.hue. apply Z.rem_bound_pos; [|lia].
    pose proof (hash_range (name ++ email)). lia. }
  split; [exact Hhue|]. unfold DynamicAvatar.secondaryHue.
  split; [apply Z.rem_bound_pos; lia|].
  rewrite Z.rem_mod_nonneg by lia.
  destruct (Z.ltb_spec (DynamicAvatar.hue name email) 300).
  - apply Z.mod_small. lia.
  - symmetry. apply Z.mod_unique with 1; lia.
Qed.

(** ** The student form *)

(** X17. A file is accepted for upload exactly when its type is one of
    the five image types and its size is at most 5 * 1024 * 1024 bytes:
    a file of exactly that size is accepted, one byte more is refused, and
    a wrong type is reported before an excessive size. *)
Theorem validateFile_accepts (file : File) :
  let allowed := [lit "image/jpeg"; lit "image/jpg"; lit "image/png";
                  lit "image/gif"; lit "image/webp"] in
  (StudentForm.validateFile file = None
   <-> In (f_type file) allowed /\ f_size file <= 5242880)
  /\ (~ In (f_type file) allowed ->
      StudentForm.validateFile file
      = Some (lit "Please upload a valid image file (JPEG, PNG, GIF, or WebP)"))
  /\ (In (f_type file) allowed -> 5242880 < f_size file ->
      StudentForm.validateFile file = Some (lit "File size must be less than 5MB")).
Proof.
  intros allowed. unfold StudentForm.validateFile. cbv zeta. fold allowed.
  change (5 * 1024 * 1024) with 5242880.
  assert (Htype : existsb (jsstring_eqb (f_type file)) allowed = true
                  <-> In (f_type file) allowed).
  { rewrite existsb_exists. unfold jsstring_eqb. split.
    - intros (x & Hin & Heq%bool_decide_eq_true). rewrite Heq. exact Hin.
    - intros Hin. exists (f_type file). split; [exact Hin|].
      apply bool_decide_eq_true. reflexivity. }
  destruct (existsb _ allowed) eqn:Hmem; cbn [negb].
  - assert (Hin : In (f_type file) allowed) by (apply Htype; reflexivity).
    destruct (Z.gtb_spec (f_size file) 5242880).
    + split; [split; [discriminate | lia]|]. split; [contradiction | reflexivity].
    + split; [split; [auto | reflexivity]|]. split; [contradiction | lia].
  - assert (Hnot : ~ In (f_type file) allowed).
    { intros Hin. apply Htype in Hin. discriminate. }
    split; [split; [discriminate | intros [? _]; contradiction]|].
    split; [reflexivity | contradiction].
Qed.

Lemma validateFile_accepts_witness :
  StudentForm.validateFile (mkFile (lit "image/png") 5242880) = None.
Proof.
  apply (validateFile_accepts (mkFile (lit "image/png") 5242880)).
  split; [cbn; auto | cbn; lia].
Defined.

(** *** Matching by derivatives *)

Lemma nullable_lang r : nullable r = true <-> lang r [].
Proof.
  split.
  - induction r as [| |p|r IHr s IHs|r IHr s IHs|r IHr]; cbn [nullable];
      intros Hnull; try discriminate.
    + constructor.
    + apply orb_prop in Hnull as [H|H]; [apply lang_Alt_l | apply lang_Alt_r]; auto.
    + apply andb_prop in Hnull as [H1 H2]. apply (lang_Cat r s [] []); auto.
    + constructor.
  - induction r as [| |p|r IHr s IHs|r IHr s IHs|r IHr]; cbn [nullable];
      intros Hlang; inversion Hlang; subst; try reflexivity.
    + rewrite IHr by assumption. reflexivity.
    + rewrite IHs by assumption. apply orb_true_r.
    + match goal with H : _ ++ _ = [] |- _ => apply app_eq_nil in H as [-> ->] end.
      rewrite IHr, IHs by assumption. reflexivity.
Qed.

Lemma lang_Star_cons r c s :
  lang (Star r) (c :: s) ->
  exists a b, s = a ++ b /\ lang r (c :: a) /\ lang (Star r) b.
Proof.
  intros Hlang. remember (Star r) as R eqn:HR. remember (c :: s) as t eqn:Ht.
  induction Hlang as [| | | | |r0|r0 a b Ha _ Hb IHb]; try discriminate.
  injection HR as ->. destruct a as [|c' a].
  - apply IHb; [reflexivity | exact Ht].
  - cbn [app] in Ht. injection Ht as -> <-. exists a, b. auto.
Qed.

Lemma deriv_lang c r s : lang (deriv c r) s <-> lang r (c :: s).
Proof.
  revert s. induction r as [| |p|r IHr r' IHr'|r IHr r' IHr'|r IHr]; intros s;
    cbn [deriv].
  - split; intros Hlang; inversion Hlang.
  - split; intros Hlang; inversion Hlang.
  - destruct (p c) eqn:Hp; split; intros Hlang; inversion Hlang; subst.
    + constructor. exact Hp.
    + constructor.
    + congruence.
  - split; intros Hlang; inversion Hlang; subst.
    + apply lang_Alt_l, IHr. assumption.
    + apply lang_Alt_r, IHr'. assumption.
    + apply lang_Alt_l, IHr. assumption.
    + apply lang_Alt_r, IHr'. assumption.
  - assert (Hfwd : forall t, lang (Cat (deriv c r) r') t -> lang (Cat r r') (c :: t)).
    { intros t Hlang. inversion Hlang; subst.
      rewrite app_comm_cons. constructor; [apply IHr|]; assumption. }
    assert (Hbwd : lang (Cat r r') (c :: s) ->
                   lang (Cat (deriv c r) r') s \/ (lang r [] /\ lang r' (c :: s))).
    { intros Hlang. inversion Hlang as [| | | |? ? a b Ha Hb|  |]; subst.
      destruct a as [|c' a]; cbn [app] in *.
      - subst. right. auto.
      - match goal with H : _ :: _ = _ :: _ |- _ => injection H as -> <- end.
        left. constructor; [apply IHr|]; assumption. }
    destruct (nullable r) eqn:Hnull.
    + split.
      * intros Hlang. inversion Hlang; subst; [apply Hfwd; assumption|].
        change (c :: s) with ([] ++ c :: s). constructor;
          [apply nullable_lang; exact Hnull | apply IHr'; assumption].
      * intros [Hleft | [_ Hright]]%Hbwd;
          [apply lang_Alt_l; exact Hleft | apply lang_Alt_r, IHr'; exact Hright].
    + split; [apply Hfwd|].
      intros [Hleft | [Hnil%nullable_lang _]]%Hbwd; [exact Hleft | congruence].
  - split.
    + intros Hlang. inversion Hlang; subst.
      rewrite app_comm_cons. constructor; [apply IHr|]; assumption.
    + intros (a & b & -> & Ha & Hb)%lang_Star_cons. constructor; [apply IHr|]; assumption.
Qed.

Lemma regex_test_lang r s : regex_test r s = true <-> lang r s.
Proof.
  unfold regex_test. revert r. induction s as [|c s IH]; intros r; cbn [fold_left].
  - apply nullable_lang.
  - rewrite IH. apply deriv_lang.
Qed.

Lemma lang_Star_Class p s : lang (Star (Class p)) s <-> forallb p s = true.
Proof.
  split.
  - intros Hlang. remember (Star (Class p)) as R eqn:HR.
    induction Hlang as [| | | | |r0|r0 a b Ha _ Hb IHb]; try discriminate; [reflexivity|].
    injection HR as ->. inversion Ha; subst. cbn [app forallb].
    rewrite IHb by reflexivity. apply andb_true_intro. auto.
  - induction s as [|c s IH]; cbn [forallb]; [constructor|].
    intros [Hc Hs]%andb_prop. change (c :: s) with ([c] ++ s).
    constructor; [constructor; exact Hc | exact (IH Hs)].
Qed.

Lemma lang_plus_Class p s :
  lang (plus (Class p)) s <-> s <> [] /\ forallb p s = true.
Proof.
  unfold plus. split.
  - intros Hlang. inversion Hlang as [| | | |? ? a b Ha Hb|  |]; subst.
    inversion Ha; subst. apply lang_Star_Class in Hb. cbn [app forallb].
    split; [discriminate|]. apply andb_true_intro. auto.
  - intros [Hne Hall]. destruct s as [|c s]; [congruence|].
    cbn [forallb] in Hall. apply andb_prop in Hall as [Hc Hs].
    change (c :: s) with ([c] ++ s).
    constructor; [constructor; exact Hc | apply lang_Star_Class; exact Hs].
Qed.

Lemma lang_Class_eqb u s : lang (Class (N.eqb u)) s <-> s = [u].
Proof.
  split.
  - intros Hlang. inversion Hlang; subst.
    match goal with H : (_ =? _)%N = true |- _ => apply N.eqb_eq in H; subst end.
    reflexivity.
  - intros ->. constructor. apply N.eqb_refl.
Qed.

(** What the e-mail pattern denotes. *)
Lemma validateEmail_shape email :
  StudentForm.validateEmail email = true
  <-> exists local domain tld,
        email = local ++ 64%N :: domain ++ 46%N :: tld
        /\ local <> [] /\ domain <> [] /\ tld <> []
        /\ forallb not_space_or_at local = true
        /\ forallb not_space_or_at domain = true
        /\ forallb not_space_or_at tld = true.
Proof.
  unfold StudentForm.validateEmail. rewrite regex_test_lang.
  unfold StudentForm.emailRegex. split.
  - intros H1. inversion H1 as [| | | |? ? local r1 Hlocal H2|  |]; subst.
    inversion H2 as [| | | |? ? at_ r2 Hat H3|  |]; subst.
    inversion H3 as [| | | |? ? domain r3 Hdomain H4|  |]; subst.
    inversion H4 as [| | | |? ? dot tld Hdot Htld|  |]; subst.
    apply lang_Class_eqb in Hat as ->. apply lang_Class_eqb in Hdot as ->.
    apply lang_plus_Class in Hlocal as [? ?]. apply lang_plus_Class in Hdomain as [? ?].
    apply lang_plus_Class in Htld as [? ?].
    exists local, domain, tld. cbn [app]. auto 10.
  - intros (local & domain & tld & -> & ? & ? & ? & ? & ? & ?).
    change (local ++ 64%N :: domain ++ 46%N :: tld)
      with (local ++ [64%N] ++ domain ++ [46%N] ++ tld).
    repeat constructor; try apply lang_plus_Class; try apply lang_Class_eqb; auto.
Qed.

Lemma not_space_or_at_facts (l : jsstring) :
  forallb not_space_or_at l = true ->
  count_occ N.eq_dec l 64%N = 0%nat
  /\ forallb (fun u => negb (isWhiteSpace u)) l = true.
Proof.
  induction l as [|u l IH]; [split; reflexivity|]. cbn [forallb].
  intros [Hu Hl]%andb_prop. destruct (IH Hl) as [Hcount Hspace].
  unfold not_space_or_at in Hu. apply negb_true_iff, orb_false_elim in Hu as [Hws Hat].
  apply N.eqb_neq in Hat. split.
  - rewrite count_occ_cons_neq by congruence. exact Hcount.
  - cbn [forallb]. rewrite Hws, Hspace. reflexivity.
Qed.

Lemma trimStart_no_space (s : jsstring) :
  forallb (fun u => negb (isWhiteSpace u)) s = true -> trimStart s = s.
Proof.
  destruct s as [|u s]; [reflexivity|]. cbn [forallb trimStart].
  intros [Hu _]%andb_prop. apply negb_true_iff in Hu. rewrite Hu. reflexivity.
Qed.

Lemma trim_no_space (s : jsstring) :
  forallb (fun u => negb (isWhiteSpace u)) s = true -> trim s = s.
Proof.
  intros Hs. unfold trim. rewrite (trimStart_no_space s Hs), trimStart_no_space.
  - apply rev_involutive.
  - apply forallb_forall. intros u Hu%in_rev.
    exact (proj1 (forallb_forall _ _) Hs u Hu).
Qed.

Lemma validateEmail_no_space email :
  StudentForm.validateEmail email = true ->
  count_occ N.eq_dec email 64%N = 1%nat
  /\ forallb (fun u => negb (isWhiteSpace u)) email = true
  /\ (5 <= length email)%nat.
Proof.
  intros (local & domain & tld & -> & Hl & Hd & Ht & Fl & Fd & Ft)%validateEmail_shape.
  destruct (not_space_or_at_facts _ Fl) as [Cl Sl].
  destruct (not_space_or_at_facts _ Fd) as [Cd Sd].
  destruct (not_space_or_at_facts _ Ft) as [Ct St].
  split; [|split].
  - rewrite count_occ_app, Cl. cbn [count_occ]. destruct (N.eq_dec 64%N 64%N); [|congruence].
    rewrite count_occ_app, Cd. cbn [count_occ].
    destruct (N.eq_dec 46%N 64%N); [discriminate|]. rewrite Ct. reflexivity.
  - rewrite forallb_app, Sl. cbn [forallb andb].
    change (negb (isWhiteSpace 64%N)) with true. cbn [andb].
    rewrite forallb_app, Sd. cbn [forallb andb].
    change (negb (isWhiteSpace 46%N)) with true. exact St.
  - rewrite length_app. cbn [length]. rewrite length_app. cbn [length].
    destruct local, domain, tld; try congruence. cbn [length]. lia.
Qed.

(** X18. [validateEmail] accepts exactly the strings of the form
    [local@domain.tld] whose three parts are non-empty and contain
    neither white space nor [@].  An accepted address therefore has
    exactly one [@], no white space at all, and at least five code
    units. *)
Theorem validateEmail_accepts (email : jsstring) :
  (StudentForm.validateEmail email = true
   <-> exists local domain tld,
         email = local ++ 64%N :: domain ++ 46%N :: tld
         /\ local <> [] /\ domain <> [] /\ tld <> []
         /\ forallb not_space_or_at local = true
         /\ forallb not_space_or_at domain = true
         /\ forallb not_space_or_at tld = true)
  /\ (StudentForm.validateEmail email = true ->
      count_occ N.eq_dec email 64%N = 1%nat
      /\ forallb (fun u => negb (isWhiteSpace u)) email = true
      /\ (5 <= length email)%nat).
Proof.
  split; [apply validateEmail_shape | apply validateEmail_no_space].
Qed.

Lemma validateEmail_accepts_witness :
  StudentForm.validateEmail (lit "ada@example.org") = true
  /\ count_occ N.eq_dec (lit "ada@example.org") 64%N = 1%nat.
Proof.
  assert (Hok : StudentForm.validateEmail (lit "ada@example.org") = true)
    by (vm_compute; reflexivity).
  split; [exact Hok|].
  destruct (validateEmail_accepts (lit "ada@example.org")) as [_ Hfacts].
  destruct (Hfacts Hok) as [Hone _]. exact Hone.
Defined.

Example validateEmail_examples :
  StudentForm.validateEmail (lit "a@b.c") = true
  /\ StudentForm.validateEmail (lit "a@b") = false
  /\ StudentForm.validateEmail (lit "a b@c.d") = false
  /\ StudentForm.validateEmail (lit "a@b@c.d") = false
  /\ StudentForm.validateEmail (lit "a@b.c ") = false
  /\ StudentForm.validateEmail (lit "a@.b.c") = true
  /\ StudentForm.validateEmail [] = false.
Proof. vm_compute. repeat split. Qed.

(** X19. [validateForm] reports no error exactly when the trimmed name
    has at least 2 code units, the e-mail as typed passes
    [validateEmail], and a course is selected; it never sets the general
    error.  An e-mail with surrounding white space is refused rather than
    trimmed, so an accepted e-mail is unchanged by the trim that
    submission applies. *)
Theorem validateForm_accepts (formData : FormData) :
  let errors := StudentForm.validateForm formData in
  (fe_name errors = None <-> (2 <= length (trim (fd_name formData)))%nat)
  /\ (fe_email errors = None <-> StudentForm.validateEmail (fd_email formData) = true)
  /\ (fe_course errors = None <-> fd_course formData <> [])
  /\ fe_general errors = None
  /\ (fe_email errors = None -> trim (fd_email formData) = fd_email formData).
Proof.
  intros errors. subst errors. unfold StudentForm.validateForm.
  cbn [fe_name fe_email fe_course fe_general].
  assert (Htrim : StudentForm.validateEmail (fd_email formData) = true ->
                  trim (fd_email formData) = fd_email formData).
  { intros (_ & Hspace & _)%validateEmail_no_space. apply trim_no_space, Hspace. }
  assert (Hemail :
    (if negb (nonempty (trim (fd_email formData)))
     then Some (lit "Email is required")
     else if negb (StudentForm.validateEmail (fd_email formData))
          then Some (lit "Please enter a valid email address") else None) = None
    <-> StudentForm.validateEmail (fd_email formData) = true).
  { destruct (StudentForm.validateEmail (fd_email formData)) eqn:Hvalid.
    - rewrite (Htrim eq_refl).
      apply validateEmail_no_space in Hvalid as (_ & _ & Hlen).
      destruct (fd_email formData); [cbn [length] in Hlen; lia|].
      cbn [nonempty negb]. split; reflexivity.
    - destruct (negb (nonempty _)); cbn [negb]; split; discriminate. }
  split; [|split; [exact Hemail|split; [|split; [reflexivity|]]]].
  - destruct (trim (fd_name formData)) as [|u rest]; cbn [nonempty negb].
    + split; [discriminate | cbn [length]; lia].
    + destruct (Z.ltb_spec (Z.of_nat (length (u :: rest))) 2);
        split; try discriminate; try reflexivity; lia.
  - destruct (fd_course formData); cbn [nonempty negb]; split; congruence.
  - intros Hnone. apply Htrim, Hemail, Hnone.
Qed.

Lemma validateForm_accepts_witness :
  let formData :=
    mkFormData (lit " Ada ") (lit "ada@example.org") (lit "CSS Mastery") [] in
  StudentForm.validateForm formData = mkFormErrors None None None None
  /\ trim (fd_email formData) = fd_email formData.
Proof.
  intros formData. split; [vm_compute; reflexivity|].
  destruct (validateForm_accepts formData) as (_ & _ & _ & _ & Htrim).
  apply Htrim. vm_compute. reflexivity.
Defined.
